(** * pytransform3d: transform algebra and rotation testing utilities

    A shallow embedding of

    - [pytransform3d/rotations/_testing.py]: the assertion helpers
      [assert_axis_angle_equal], [assert_compact_axis_angle_equal],
      [assert_quaternion_equal], [assert_euler_xyz_equal],
      [assert_euler_zyx_equal] and [assert_rotation_matrix];
    - the transform algebra exercised by
      [pytransform/test/test_transformations.py]: [transform_from],
      [vector_to_point], [invert_transform], [concat] and [transform].

    Numbers are kept abstract: a [Scalar] supplies the arithmetic the code
    performs on array entries (an idealisation of float64 by an exact
    ring), and [Externals] supplies what the module imports (numpy's
    tolerance comparison and vector norm, and the normalisation and
    conversion helpers of sibling modules).  The instance [Zscalar] runs
    every definition on concrete arrays. *)

From Stdlib Require Import String List ZArith Bool Arith Lia Ring.
From Stdlib Require Import setoid_ring.InitialRing.
Import ListNotations.

(** ** Scalars *)

(** The operations the code applies to array entries. [eqb] is [==] on
    entries, [sgn] is [np.sign], [absv] is [abs], [np_pi] is [np.pi]. *)
Class Scalar := {
  T : Type;
  zero : T;
  one : T;
  add : T -> T -> T;
  mul : T -> T -> T;
  sub : T -> T -> T;
  opp : T -> T;
  eqb : T -> T -> bool;
  sgn : T -> T;
  absv : T -> T;
  np_pi : T
}.

(** Exact arithmetic: the entries form a commutative ring. *)
Definition ring_laws (K : Scalar) : Prop :=
  ring_theory zero one add mul sub opp (@eq T).

(** [==] on entries decides equality. *)
Definition eqb_laws (K : Scalar) : Prop :=
  forall x y : T, eqb x y = true <-> x = y.

#[local] Open Scope Z_scope.

(** Integers: an exact ring on which every definition below evaluates.
    Angles of this instance count quarter turns, so that [np.pi] is 2 and
    a rotation by whole quarter turns has integer entries. *)
#[global] Instance Zscalar : Scalar := {
  T := Z;
  zero := 0;
  one := 1;
  add := Z.add;
  mul := Z.mul;
  sub := Z.sub;
  opp := Z.opp;
  eqb := Z.eqb;
  sgn := Z.sgn;
  absv := Z.abs;
  np_pi := 2
}.

#[local] Close Scope Z_scope.

(** ** Python results: exceptions and warnings *)

Inductive exn : Type :=
| ValueError
| AssertionError
| LinAlgError.

Definition exn_eqb (a b : exn) : bool :=
  match a, b with
  | ValueError, ValueError => true
  | AssertionError, AssertionError => true
  | LinAlgError, LinAlgError => true
  | _, _ => false
  end.

(** A call either returns a value or raises; a raise carries no value. *)
Inductive result (A : Type) : Type :=
| Ok (a : A)
| Raise (e : exn).

Arguments Ok {A} a.
Arguments Raise {A} e.

Definition rbind {A B} (r : result A) (k : A -> result B) : result B :=
  match r with
  | Ok a => k a
  | Raise e => Raise e
  end.

Inductive category : Type :=
| DeprecationWarning.

(** One call of [warnings.warn(message, category, stacklevel=...)]. *)
Record warning : Type := mk_warning {
  w_message : string;
  w_category : category;
  w_stacklevel : nat
}.

(** Code of [_testing.py] runs against the list of warnings issued so
    far and returns its outcome with the list extended. *)
Definition Py (A : Type) : Type := list warning -> result A * list warning.

Definition ret {A} (a : A) : Py A := fun w => (Ok a, w).

Definition raise {A} (e : exn) : Py A := fun w => (Raise e, w).

Definition bind {A B} (m : Py A) (k : A -> Py B) : Py B :=
  fun w =>
    match m w with
    | (Ok a, w') => k a w'
    | (Raise e, w') => (Raise e, w')
    end.

(** A [result] computed by a pure callee, in [Py]. *)
Definition lift {A} (r : result A) : Py A := fun w => (r, w).

(** The call of a callee that hands back its outcome together with the
    warnings it issued on the way: they join the list, whether the callee
    returned or raised. *)
Definition call {A} (c : result A * list warning) : Py A :=
  fun w => (fst c, w ++ snd c).

(** [warnings.warn]: recorded, and execution continues. *)
Definition warnings_warn (msg : string) (c : category) (lvl : nat) : Py unit :=
  fun w => (Ok tt, w ++ [mk_warning msg c lvl]).

(** [try: body except e: handler]. *)
Definition try_except {A} (body : Py A) (e : exn) (handler : Py A) : Py A :=
  fun w =>
    match body w with
    | (Ok a, w') => (Ok a, w')
    | (Raise e', w') => if exn_eqb e e' then handler w' else (Raise e', w')
    end.

Declare Scope py_scope.
Delimit Scope py_scope with py.
Notation "x <- m ;; k" := (bind m (fun x => k))
  (at level 61, m at next level, right associativity) : py_scope.
Notation "m ;;; k" := (bind m (fun _ => k))
  (at level 61, right associativity) : py_scope.

(** ** Arrays *)

Section Arrays.

Context {K : Scalar}.

(** A numpy array: its shape and its entries in row-major order. *)
Record ndarray : Type := mk_ndarray {
  shape : list nat;
  data : list T
}.

(** The buffer holds exactly the entries the shape announces. *)
Definition well_formed (a : ndarray) : Prop :=
  length (data a) = fold_right Nat.mul 1 (shape a).

Definition ndim (a : ndarray) : nat := length (shape a).

Definition shape_eqb (s1 s2 : list nat) : bool :=
  if list_eq_dec Nat.eq_dec s1 s2 then true else false.

Definition np_array1 (v : list T) : ndarray := mk_ndarray [length v] v.

Definition np_scalar (x : T) : ndarray := mk_ndarray [] [x].

Definition np_zeros (s : list nat) : ndarray :=
  mk_ndarray s (repeat zero (fold_right Nat.mul 1 s)).

(** Unary minus and [np.sign], entry by entry. *)
Definition np_neg (a : ndarray) : ndarray :=
  mk_ndarray (shape a) (map opp (data a)).

Definition np_sign (a : ndarray) : ndarray :=
  mk_ndarray (shape a) (map sgn (data a)).

(** [a != b], entry by entry, for operands of one shape, which is the
    case the helpers are written for.  Operands of two shapes raise as
    numpy does for shapes it cannot broadcast; the shapes numpy would
    broadcast, such as [(4,)] against [(1, 4)], are not modelled. *)
Definition np_not_equal (a b : ndarray) : result (list bool) :=
  if shape_eqb (shape a) (shape b)
  then Ok (map (fun xy => negb (eqb (fst xy) (snd xy)))
               (combine (data a) (data b)))
  else Raise ValueError.

(** [np.any] and the builtin [any] on a one-dimensional boolean array,
    where the two agree.  The builtin iterates over the first axis, so on
    an array of higher rank it would test whole rows; that case is not
    modelled, the arrays of the helpers being vectors. *)
Definition np_any (bs : list bool) : bool := existsb (fun b => b) bs.

(** *** Rows and columns *)

Definition vector : Type := list T.
Definition matrix : Type := list vector.

(** The [r] rows of length [c] of a row-major buffer. *)
Fixpoint rows (r c : nat) (d : list T) : matrix :=
  match r with
  | O => []
  | S r' => firstn c d :: rows r' c (skipn c d)
  end.

Definition of_rows (r c : nat) (m : matrix) : ndarray :=
  mk_ndarray [r; c] (concat m).

Definition dot (u v : vector) : T :=
  fold_right add zero (map (fun xy => mul (fst xy) (snd xy)) (combine u v)).

Definition column (j : nat) (m : matrix) : vector :=
  map (fun row => nth j row zero) m.

(** The transpose of a matrix with [c] columns. *)
Definition transpose (c : nat) (m : matrix) : matrix :=
  map (fun j => column j m) (seq 0 c).

Definition vadd (u v : vector) : vector :=
  map (fun xy => add (fst xy) (snd xy)) (combine u v).

Definition matvec (m : matrix) (v : vector) : vector :=
  map (fun row => dot row v) m.

(** The product of [a] with a matrix [b] of [c] columns. *)
Definition matmul (c : nat) (a b : matrix) : matrix :=
  map (fun row => map (fun j => dot row (column j b)) (seq 0 c)) a.

Definition identity (n : nat) : matrix :=
  map (fun i => map (fun j => if Nat.eqb i j then one else zero) (seq 0 n))
      (seq 0 n).

(** [m] has [r] rows of [c] entries each. *)
Definition shaped (r c : nat) (m : matrix) : bool :=
  Nat.eqb (length m) r && forallb (fun row => Nat.eqb (length row) c) m.

(** *** numpy on two-dimensional arrays *)

Definition np_eye (n : nat) : ndarray := of_rows n n (identity n).

(** [a.T] for a two-dimensional array; arrays of fewer dimensions are
    their own transpose, and the reversal of three or more axes, which
    this code never asks for, is not modelled. *)
Definition np_T (a : ndarray) : ndarray :=
  match shape a with
  | [r; c] => of_rows c r (transpose c (rows r c (data a)))
  | _ => a
  end.

(** [np.dot(a, b)] for a two-dimensional [a] and a one- or
    two-dimensional [b], the uses in this code; the inner dimensions must
    agree. Operands of other ranks are outside the model and rejected. *)
Definition np_dot (a b : ndarray) : result ndarray :=
  match shape a, shape b with
  | [n; k], [k'; m] =>
      if Nat.eqb k k'
      then Ok (of_rows n m (matmul m (rows n k (data a)) (rows k m (data b))))
      else Raise ValueError
  | [n; k], [k'] =>
      if Nat.eqb k k'
      then Ok (np_array1 (matvec (rows n k (data a)) (data b)))
      else Raise ValueError
  | _, _ => Raise ValueError
  end.

(** A list without its entry [j]. *)
Definition without {A : Type} (j : nat) (l : list A) : list A :=
  firstn j l ++ skipn (S j) l.

(** Determinant of the [n] by [n] matrix [m], expanded along its first
    row. *)
Fixpoint det (n : nat) (m : matrix) : T :=
  match n with
  | O => one
  | S n' =>
      match m with
      | [] => zero
      | top :: rest =>
          fold_right add zero
            (map (fun j =>
                    let cof := mul (nth j top zero)
                                   (det n' (map (without j) rest)) in
                    if Nat.even j then cof else opp cof)
                 (seq 0 n))
      end
  end.

(** The adjugate of the [n] by [n] matrix [m]: the transposed matrix of
    cofactors. *)
Definition adjugate (n : nat) (m : matrix) : matrix :=
  map (fun i =>
         map (fun j =>
                let c := det (pred n) (map (without i) (without j m)) in
                if Nat.even (i + j) then c else opp c)
             (seq 0 n))
      (seq 0 n).

Definition scale (c : T) (m : matrix) : matrix := map (map (mul c)) m.

(** [np.linalg.det] on a single square matrix. *)
Definition np_linalg_det (a : ndarray) : result T :=
  match shape a with
  | [r; c] =>
      if Nat.eqb r c then Ok (det r (rows r c (data a)))
      else Raise LinAlgError
  | _ => Raise LinAlgError
  end.

End Arrays.

Arguments ndarray K : clear implicits.
Arguments vector K : clear implicits.
Arguments matrix K : clear implicits.

(** ** What [_testing.py] imports *)

(** The collaborators of the module: numpy's
    [assert_array_almost_equal] (its verdict under the forwarded
    [*args, **kwargs]) and [np.linalg.norm], and the helpers of
    [._utils] and [._conversions], which may reject their argument.  The
    two conversions may moreover issue warnings of their own: a call
    hands back its outcome and the warnings it issued. *)
Class Externals (K : Scalar) := {
  kwargs : Type;
  almost_equal : kwargs -> ndarray K -> ndarray K -> bool;
  np_linalg_norm : ndarray K -> T;
  norm_axis_angle : ndarray K -> result (ndarray K);
  norm_compact_axis_angle : ndarray K -> result (ndarray K);
  matrix_from_euler_xyz : ndarray K -> result (ndarray K) * list warning;
  matrix_from_euler_zyx : ndarray K -> result (ndarray K) * list warning
}.

(** ** pytransform3d/rotations/_testing.py *)

Section Testing.

Context {K : Scalar} {E : Externals K}.

#[local] Open Scope py_scope.

(** [numpy.testing.assert_array_almost_equal]: returns [None] when the
    arrays agree within tolerance and raises [AssertionError] otherwise. *)
Definition assert_array_almost_equal (kw : kwargs) (x y : ndarray K) : Py unit :=
  if almost_equal kw x y then ret tt else raise AssertionError.

(** [np.any(np.sign(a1) != np.sign(a2))]. *)
Definition signs_differ (a1 a2 : ndarray K) : result bool :=
  rbind (np_not_equal (np_sign a1) (np_sign a2)) (fun ne => Ok (np_any ne)).

(** [assert_axis_angle_equal] (lines 9-39): [a1] is negated when the
    sign test holds, both arrays are normalised, the normal forms are
    compared. *)
Definition assert_axis_angle_equal (kw : kwargs) (a1 a2 : ndarray K) : Py unit :=
  differ <- lift (signs_differ a1 a2) ;;
  let a1 := if differ then np_neg a1 else a1 in
  a1 <- lift (norm_axis_angle a1) ;;
  a2 <- lift (norm_axis_angle a2) ;;
  assert_array_almost_equal kw a1 a2.

(** The guard [abs(angle1) == np.pi and abs(angle2) == np.pi and
    any(...)]: [and] evaluates its last operand only when the first two
    hold.  The last operand is the builtin [any], taken here on vectors
    (see [np_any]). *)
Definition half_turn_flip (a1 a2 : ndarray K) : result bool :=
  let angle1 := np_linalg_norm a1 in
  let angle2 := np_linalg_norm a2 in
  if eqb (absv angle1) np_pi then
    if eqb (absv angle2) np_pi then signs_differ a1 a2
    else Ok false
  else Ok false.

(** [assert_compact_axis_angle_equal] (lines 42-74). *)
Definition assert_compact_axis_angle_equal (kw : kwargs) (a1 a2 : ndarray K)
  : Py unit :=
  flip <- lift (half_turn_flip a1 a2) ;;
  let a1 := if flip then np_neg a1 else a1 in
  a1 <- lift (norm_compact_axis_angle a1) ;;
  a2 <- lift (norm_compact_axis_angle a2) ;;
  assert_array_almost_equal kw a1 a2.

(** [assert_quaternion_equal] (lines 77-103): the second comparison runs
    in the handler of the [AssertionError] of the first. *)
Definition assert_quaternion_equal (kw : kwargs) (q1 q2 : ndarray K) : Py unit :=
  try_except (assert_array_almost_equal kw q1 q2)
             AssertionError
             (assert_array_almost_equal kw q1 (np_neg q2)).

(** [assert_euler_xyz_equal] (lines 106-134) and
    [assert_euler_zyx_equal] (lines 137-165): a warning with
    [stacklevel=2], the two conversions with whatever warnings they
    issue, the comparison. *)
Definition assert_euler_xyz_equal (kw : kwargs) (e_xyz1 e_xyz2 : ndarray K)
  : Py unit :=
  warnings_warn "assert_euler_xyz_equal will be removed in version 2.0.0"
                DeprecationWarning 2 ;;;
  R1 <- call (matrix_from_euler_xyz e_xyz1) ;;
  R2 <- call (matrix_from_euler_xyz e_xyz2) ;;
  assert_array_almost_equal kw R1 R2.

Definition assert_euler_zyx_equal (kw : kwargs) (e_zyx1 e_zyx2 : ndarray K)
  : Py unit :=
  warnings_warn "assert_euler_zyx_equal will be removed in version 2.0.0"
                DeprecationWarning 2 ;;;
  R1 <- call (matrix_from_euler_zyx e_zyx1) ;;
  R2 <- call (matrix_from_euler_zyx e_zyx2) ;;
  assert_array_almost_equal kw R1 R2.

(** [assert_rotation_matrix] (lines 168-190): [np.dot(R, R.T)] against
    [np.eye(3)], then [np.linalg.det(R)] against [1.0]. *)
Definition assert_rotation_matrix (kw : kwargs) (R : ndarray K) : Py unit :=
  RRt <- lift (np_dot R (np_T R)) ;;
  assert_array_almost_equal kw RRt (np_eye 3) ;;;
  d <- lift (np_linalg_det R) ;;
  assert_array_almost_equal kw (np_scalar d) (np_scalar one).

(** *** The policies, in the words of the spec *)

(** The raw sign patterns of two arrays disagree in some entry. *)
Definition sign_patterns_disagree (a1 a2 : ndarray K) : bool :=
  existsb (fun xy => negb (eqb (sgn (fst xy)) (sgn (snd xy))))
          (combine (data a1) (data a2)).

(** Map both arguments through the normalisation [f] and compare the
    images within tolerance. *)
Definition compare_images (f : ndarray K -> result (ndarray K))
    (kw : kwargs) (x y : ndarray K) : Py unit :=
  x' <- lift (f x) ;;
  y' <- lift (f y) ;;
  assert_array_almost_equal kw x' y'.

(** [R R^T] equals the 3x3 identity within tolerance. *)
Definition orthogonal_within (kw : kwargs) (R : ndarray K) : bool :=
  match np_dot R (np_T R) with
  | Ok RRt => almost_equal kw RRt (np_eye 3)
  | Raise _ => false
  end.

(** [det R] equals 1 within tolerance. *)
Definition unit_det_within (kw : kwargs) (R : ndarray K) : bool :=
  match np_linalg_det R with
  | Ok d => almost_equal kw (np_scalar d) (np_scalar one)
  | Raise _ => false
  end.

End Testing.

(** ** The transform algebra *)

Section Transformations.

Context {K : Scalar}.

(** The rows [[R, p], [0, 0, 0, 1]]. *)
Definition homogeneous (R : matrix K) (p : vector K) : matrix K :=
  map (fun rp => fst rp ++ [snd rp]) (combine R p)
  ++ [[zero; zero; zero; one]].

(** Modelled from the spec: [pytransform.transformations.transform_from]
    is not among the sources. The homogeneous transform
    [[R, p], [0, 0, 0, 1]] of a 3x3 array [R] and a 3-vector [p]; the
    arguments are not validated. *)
Definition transform_from (R p : ndarray K) : ndarray K :=
  of_rows 4 4 (homogeneous (rows 3 3 (data R)) (data p)).

(** Modelled from the spec: [pytransform.transformations.vector_to_point]
    is not among the sources. The homogeneous point [v_x, v_y, v_z, 1]. *)
Definition vector_to_point (v : ndarray K) : ndarray K :=
  np_array1 (data v ++ [one]).

(** Modelled from the spec: [pytransform.transformations.invert_transform]
    is not among the sources. An input that is not a 4x4 array is an
    invalid argument; otherwise the rotation block [R] and the
    translation [p] are extracted and the result has rotation [R^T] and
    translation [-R^T p]. *)
Definition invert_transform (A2B : ndarray K) : result (ndarray K) :=
  if shape_eqb (shape A2B) [4; 4] then
    let M := rows 4 4 (data A2B) in
    let R := map (firstn 3) (firstn 3 M) in
    let p := column 3 (firstn 3 M) in
    let Rt := transpose 3 R in
    Ok (transform_from (of_rows 3 3 Rt) (np_array1 (map opp (matvec Rt p))))
  else Raise ValueError.

(** Modelled from the spec: [pytransform.transformations.concat] is not
    among the sources. The 4x4 matrix product [B2C @ A2B]. *)
Definition concat (A2B B2C : ndarray K) : ndarray K :=
  of_rows 4 4 (matmul 4 (rows 4 4 (data B2C)) (rows 4 4 (data A2B))).

(** Modelled from the spec: [pytransform.transformations.transform] is
    not among the sources. A single homogeneous 4-vector is mapped to a
    single vector, a two-dimensional array of 4-vectors is mapped row by
    row, and a point argument of any other shape is an invalid
    argument. *)
Definition transform (A2B PA : ndarray K) : result (ndarray K) :=
  let M := rows 4 4 (data A2B) in
  match shape PA with
  | [c] =>
      if Nat.eqb c 4 then Ok (np_array1 (matvec M (data PA)))
      else Raise ValueError
  | [n; c] =>
      if Nat.eqb c 4
      then Ok (of_rows n 4 (map (matvec M) (rows n 4 (data PA))))
      else Raise ValueError
  | _ => Raise ValueError
  end.

(** [P[i]]: the row [i] of a two-dimensional array, a one-dimensional
    array. *)
Definition np_row (i : nat) (P : ndarray K) : ndarray K :=
  match shape P with
  | [n; c] => np_array1 (nth i (rows n c (data P)) [])
  | _ => P
  end.

(** [np.array([r_0, r_1, ...])]: one-dimensional arrays of [c] entries
    each, stacked as the rows of a two-dimensional array. *)
Definition np_stack (c : nat) (l : list (ndarray K)) : ndarray K :=
  mk_ndarray [length l; c] (List.concat (map data l)).

(** *** The data model of the spec *)

(** A rotation matrix: a 3x3 array that is orthogonal and has
    determinant one. *)
Definition is_rotation_matrix (R : ndarray K) : Prop :=
  shape R = [3; 3] /\ length (data R) = 9 /\
  np_dot R (np_T R) = Ok (np_eye 3) /\
  np_linalg_det R = Ok one.

(** A homogeneous transform: rotation block, translation column and
    bottom row [0, 0, 0, 1]. *)
Definition is_transform (A : ndarray K) : Prop :=
  exists R p, is_rotation_matrix R /\ shape p = [3] /\ length (data p) = 3 /\
              A = transform_from R p.

(** [X] is a two-sided inverse of the 4x4 array [A]. *)
Definition is_inverse (A X : ndarray K) : Prop :=
  np_dot A X = Ok (np_eye 4) /\ np_dot X A = Ok (np_eye 4).

End Transformations.

(** ** The integer instance of the collaborators *)

Module ZModel.

#[local] Open Scope Z_scope.

Definition zarray : Type := ndarray Zscalar.

(** Entry-wise [|x - y| < tol] on arrays of one shape; the forwarded
    arguments are the tolerance. *)
Definition z_almost_equal (tol : Z) (a b : zarray) : bool :=
  shape_eqb (shape a) (shape b) &&
  forallb (fun xy => Z.abs (fst xy - snd xy) <? tol)
          (combine (data a) (data b)).

(** The Euclidean norm, rounded down. *)
Definition z_norm (a : zarray) : Z :=
  Z.sqrt (fold_right Z.add 0 (map (fun x => x * x) (data a))).

(** Angle wrapped to [0, 4) quarter turns; past the half turn the axis
    is reversed. *)
Definition z_norm_axis_angle (a : zarray) : result zarray :=
  match data a with
  | [x; y; z; angle] =>
      let r := angle mod 4 in
      if 2 <? r then Ok (np_array1 [- x; - y; - z; 4 - r])
      else Ok (np_array1 [x; y; z; r])
  | _ => Raise ValueError
  end.

(** Every array is its own normal form: no argument is rejected. *)
Definition z_norm_compact_axis_angle (a : zarray) : result zarray := Ok a.

(** Cosine and sine of a whole number of quarter turns. *)
Definition cos4 (k : Z) : Z :=
  match k mod 4 with 0 => 1 | 2 => -1 | _ => 0 end.

Definition sin4 (k : Z) : Z :=
  match k mod 4 with 1 => 1 | 3 => -1 | _ => 0 end.

Definition rot_x (k : Z) : matrix Zscalar :=
  [[1; 0; 0]; [0; cos4 k; - sin4 k]; [0; sin4 k; cos4 k]].

Definition rot_y (k : Z) : matrix Zscalar :=
  [[cos4 k; 0; sin4 k]; [0; 1; 0]; [- sin4 k; 0; cos4 k]].

Definition rot_z (k : Z) : matrix Zscalar :=
  [[cos4 k; - sin4 k; 0]; [sin4 k; cos4 k; 0]; [0; 0; 1]].

(** The conversions of the instance are deprecated as well: each call
    issues a warning of its own before it looks at its argument. *)
Definition z_conversion_warning : warning :=
  mk_warning "deprecated conversion" DeprecationWarning 2.

Definition z_matrix_from_euler_xyz (e : zarray)
  : result zarray * list warning :=
  (match data e with
   | [alpha; beta; gamma] =>
       Ok (of_rows 3 3 (matmul 3 (rot_x alpha)
                                 (matmul 3 (rot_y beta) (rot_z gamma))))
   | _ => Raise ValueError
   end, [z_conversion_warning]).

Definition z_matrix_from_euler_zyx (e : zarray)
  : result zarray * list warning :=
  (match data e with
   | [gamma; beta; alpha] =>
       Ok (of_rows 3 3 (matmul 3 (rot_z gamma)
                                 (matmul 3 (rot_y beta) (rot_x alpha))))
   | _ => Raise ValueError
   end, [z_conversion_warning]).

#[export] Instance Zexternals : Externals Zscalar := {
  kwargs := Z;
  almost_equal := z_almost_equal;
  np_linalg_norm := z_norm;
  norm_axis_angle := z_norm_axis_angle;
  norm_compact_axis_angle := z_norm_compact_axis_angle;
  matrix_from_euler_xyz := z_matrix_from_euler_xyz;
  matrix_from_euler_zyx := z_matrix_from_euler_zyx
}.

End ZModel.

(** ** Tactics *)

(** Split a matrix or vector of known size into its entries. *)
Ltac explode H :=
  repeat match type of H with
         | context [length ?r] =>
             is_var r; destruct r as [|? r]; simpl in H; try discriminate H
         end;
  clear H.

(** ** Properties of the assertion helpers *)

Section TestingFacts.

Context {K : Scalar} {E : Externals K}.

Lemma shape_eqb_refl (s : list nat) : shape_eqb s s = true.
Proof.
  unfold shape_eqb. destruct (list_eq_dec Nat.eq_dec s s); congruence.
Qed.

Lemma shape_eqb_eq (s1 s2 : list nat) : shape_eqb s1 s2 = true <-> s1 = s2.
Proof.
  unfold shape_eqb. destruct (list_eq_dec Nat.eq_dec s1 s2); split; congruence.
Qed.

Lemma np_any_sign_pairs (d1 d2 : list T) :
  np_any (map (fun xy => negb (eqb (fst xy) (snd xy)))
              (combine (map sgn d1) (map sgn d2)))
  = existsb (fun xy => negb (eqb (sgn (fst xy)) (sgn (snd xy))))
            (combine d1 d2).
Proof.
  revert d2. induction d1 as [|x d1 IH]; intros [|y d2]; simpl; trivial.
  unfold np_any in IH. now rewrite IH.
Qed.

Lemma signs_differ_same_shape (a1 a2 : ndarray K) :
  shape a1 = shape a2 ->
  signs_differ a1 a2 = Ok (sign_patterns_disagree a1 a2).
Proof.
  intros Hs. unfold signs_differ, np_not_equal, sign_patterns_disagree.
  simpl. rewrite Hs, shape_eqb_refl. simpl. now rewrite np_any_sign_pairs.
Qed.

Lemma np_neg_involutive (a : ndarray K) :
  (forall x : T, opp (opp x) = x) -> np_neg (np_neg a) = a.
Proof.
  intros Hopp. destruct a as [s d]. unfold np_neg. simpl. f_equal.
  rewrite map_map. induction d as [|x d IH]; simpl; [trivial|].
  now rewrite Hopp, IH.
Qed.

(** The whole run of [assert_quaternion_equal]: one verdict, no warning. *)
Lemma assert_quaternion_equal_run (kw : kwargs) (q1 q2 : ndarray K) w :
  assert_quaternion_equal kw q1 q2 w
  = (if almost_equal kw q1 q2 || almost_equal kw q1 (np_neg q2)
     then Ok tt else Raise AssertionError, w).
Proof.
  unfold assert_quaternion_equal, try_except, assert_array_almost_equal.
  destruct (almost_equal kw q1 q2); simpl; [reflexivity|].
  destruct (almost_equal kw q1 (np_neg q2)); reflexivity.
Qed.

(** C5: [assert_quaternion_equal(q1, q2)] raises [AssertionError] exactly
    when [q1] agrees within tolerance neither with [q2] nor with [-q2],
    it raises nothing else and returns exactly when one comparison
    succeeds; and [assert_quaternion_equal(q, -q)] returns for every
    quaternion [q] (unit or not) that the comparison accepts against
    itself, negation of entries being an involution. *)
Theorem assert_quaternion_equal_raises_iff :
  (forall (kw : kwargs) (q1 q2 : ndarray K) w,
      (fst (assert_quaternion_equal kw q1 q2 w) = Raise AssertionError <->
       almost_equal kw q1 q2 = false /\
       almost_equal kw q1 (np_neg q2) = false) /\
      (fst (assert_quaternion_equal kw q1 q2 w) = Ok tt <->
       almost_equal kw q1 q2 = true \/
       almost_equal kw q1 (np_neg q2) = true) /\
      (fst (assert_quaternion_equal kw q1 q2 w) = Ok tt \/
       fst (assert_quaternion_equal kw q1 q2 w) = Raise AssertionError) /\
      snd (assert_quaternion_equal kw q1 q2 w) = w) /\
  ((forall x : T, opp (opp x) = x) ->
   forall (kw : kwargs) (q : ndarray K) w,
     almost_equal kw q q = true ->
     assert_quaternion_equal kw q (np_neg q) w = (Ok tt, w)).
Proof.
  split.
  - intros kw q1 q2 w. rewrite assert_quaternion_equal_run. simpl.
    destruct (almost_equal kw q1 q2), (almost_equal kw q1 (np_neg q2));
      simpl; repeat split; intros; try tauto; try congruence;
      try (destruct H; congruence); intuition congruence.
  - intros Hopp kw q w Hrefl. rewrite assert_quaternion_equal_run.
    rewrite (np_neg_involutive q Hopp), Hrefl.
    now rewrite orb_true_r.
Qed.

(** C10: [assert_quaternion_equal] validates and normalises nothing:
    [assert_quaternion_equal(q, q)] returns for every array [q] the
    comparison accepts against itself, whatever its norm; the outcome for
    a pair is the disjunction of the two entry-wise comparisons; and the
    run is the same under any other norm, normalisation or conversion
    helper. *)
Theorem assert_quaternion_equal_no_validation :
  (forall (kw : kwargs) (q : ndarray K) w,
      almost_equal kw q q = true ->
      assert_quaternion_equal kw q q w = (Ok tt, w)) /\
  (forall (kw : kwargs) (q1 q2 : ndarray K) w,
      fst (assert_quaternion_equal kw q1 q2 w) = Ok tt <->
      almost_equal kw q1 q2 || almost_equal kw q1 (np_neg q2) = true) /\
  (forall nrm naa ncaa mxyz mzyx (kw : kwargs) (q1 q2 : ndarray K) w,
      @assert_quaternion_equal K
        (@Build_Externals K kwargs almost_equal nrm naa ncaa mxyz mzyx)
        kw q1 q2 w
      = assert_quaternion_equal kw q1 q2 w).
Proof.
  split; [|split].
  - intros kw q w Hrefl. rewrite assert_quaternion_equal_run.
    now rewrite Hrefl.
  - intros kw q1 q2 w. rewrite assert_quaternion_equal_run. simpl.
    destruct (almost_equal kw q1 q2 || almost_equal kw q1 (np_neg q2));
      split; congruence.
  - reflexivity.
Qed.


(** Two calls of a conversion and the comparison of what they return:
    the outcome, and the warnings of the conversions that ran. *)
Lemma convert_compare_run
    (conv : ndarray K -> result (ndarray K) * list warning)
    (kw : kwargs) (e1 e2 : ndarray K) w :
  bind (call (conv e1))
       (fun R1 => bind (call (conv e2))
                       (fun R2 => assert_array_almost_equal kw R1 R2)) w
  = match fst (conv e1) with
    | Raise e => (Raise e, w ++ snd (conv e1))
    | Ok R1 =>
        match fst (conv e2) with
        | Raise e => (Raise e, (w ++ snd (conv e1)) ++ snd (conv e2))
        | Ok R2 =>
            (if almost_equal kw R1 R2 then Ok tt else Raise AssertionError,
             (w ++ snd (conv e1)) ++ snd (conv e2))
        end
    end.
Proof.
  unfold bind, call, assert_array_almost_equal, ret, raise.
  destruct (conv e1) as [[R1|x1] w1]; simpl; trivial.
  destruct (conv e2) as [[R2|x2] w2]; simpl; trivial.
  destruct (almost_equal kw R1 R2); reflexivity.
Qed.

(** The run of the two deprecated helpers after their warning. *)
Lemma assert_euler_xyz_equal_run (kw : kwargs) (e1 e2 : ndarray K) w :
  assert_euler_xyz_equal kw e1 e2 w
  = bind (call (matrix_from_euler_xyz e1))
         (fun R1 => bind (call (matrix_from_euler_xyz e2))
                         (fun R2 => assert_array_almost_equal kw R1 R2))
      (w ++ [mk_warning
               "assert_euler_xyz_equal will be removed in version 2.0.0"
               DeprecationWarning 2]).
Proof. reflexivity. Qed.

Lemma assert_euler_zyx_equal_run (kw : kwargs) (e1 e2 : ndarray K) w :
  assert_euler_zyx_equal kw e1 e2 w
  = bind (call (matrix_from_euler_zyx e1))
         (fun R1 => bind (call (matrix_from_euler_zyx e2))
                         (fun R2 => assert_array_almost_equal kw R1 R2))
      (w ++ [mk_warning
               "assert_euler_zyx_equal will be removed in version 2.0.0"
               DeprecationWarning 2]).
Proof. reflexivity. Qed.

Lemma convert_compare_log
    (conv : ndarray K -> result (ndarray K) * list warning)
    (kw : kwargs) (e1 e2 : ndarray K) w (d : warning) :
  exists rest,
    snd (bind (call (conv e1))
              (fun R1 => bind (call (conv e2))
                              (fun R2 => assert_array_almost_equal kw R1 R2))
              (w ++ [d]))
    = w ++ d :: rest.
Proof.
  rewrite convert_compare_run.
  destruct (fst (conv e1)) as [R1|x1].
  - exists (snd (conv e1) ++ snd (conv e2)).
    destruct (fst (conv e2)) as [R2|x2]; simpl;
      now rewrite <- !app_assoc.
  - exists (snd (conv e1)). simpl. now rewrite <- app_assoc.
Qed.

Lemma convert_compare_verdict
    (conv : ndarray K -> result (ndarray K) * list warning)
    (kw : kwargs) (e1 e2 R1 R2 : ndarray K) w :
  fst (conv e1) = Ok R1 -> fst (conv e2) = Ok R2 ->
  fst (bind (call (conv e1))
            (fun R1 => bind (call (conv e2))
                            (fun R2 => assert_array_almost_equal kw R1 R2)) w)
  = if almost_equal kw R1 R2 then Ok tt else Raise AssertionError.
Proof.
  intros H1 H2. rewrite convert_compare_run, H1, H2. reflexivity.
Qed.

(** C9: every call of [assert_euler_xyz_equal] and of
    [assert_euler_zyx_equal] issues its [DeprecationWarning]: whatever
    the arguments and the outcome, the warnings issued when the call ends
    are those issued before it, then the helper's own warning, then
    whatever the conversions have issued.  The warning is not fatal: when
    both conversions return, the outcome is that of comparing the two
    matrices within tolerance, so the call returns whenever the matrices
    agree within tolerance and raises [AssertionError] when they do
    not. *)
Theorem assert_euler_equal_deprecated :
  forall (kw : kwargs) (e1 e2 : ndarray K) w,
    ((exists rest,
         snd (assert_euler_xyz_equal kw e1 e2 w)
         = w ++ mk_warning
                  "assert_euler_xyz_equal will be removed in version 2.0.0"
                  DeprecationWarning 2 :: rest) /\
     (exists rest,
         snd (assert_euler_zyx_equal kw e1 e2 w)
         = w ++ mk_warning
                  "assert_euler_zyx_equal will be removed in version 2.0.0"
                  DeprecationWarning 2 :: rest)) /\
    (forall R1 R2,
        fst (matrix_from_euler_xyz e1) = Ok R1 ->
        fst (matrix_from_euler_xyz e2) = Ok R2 ->
        fst (assert_euler_xyz_equal kw e1 e2 w)
        = if almost_equal kw R1 R2 then Ok tt else Raise AssertionError) /\
    (forall R1 R2,
        fst (matrix_from_euler_zyx e1) = Ok R1 ->
        fst (matrix_from_euler_zyx e2) = Ok R2 ->
        fst (assert_euler_zyx_equal kw e1 e2 w)
        = if almost_equal kw R1 R2 then Ok tt else Raise AssertionError).
Proof.
  intros kw e1 e2 w. split; [split|split].
  - rewrite assert_euler_xyz_equal_run. apply convert_compare_log.
  - rewrite assert_euler_zyx_equal_run. apply convert_compare_log.
  - intros R1 R2 H1 H2. rewrite assert_euler_xyz_equal_run.
    now apply convert_compare_verdict.
  - intros R1 R2 H1 H2. rewrite assert_euler_zyx_equal_run.
    now apply convert_compare_verdict.
Qed.

(** The two checks of [assert_rotation_matrix] in sequence. *)
Lemma assert_rotation_matrix_run (kw : kwargs) (R : ndarray K) w :
  assert_rotation_matrix kw R w
  = (match np_dot R (np_T R) with
     | Raise e => Raise e
     | Ok RRt =>
         if almost_equal kw RRt (np_eye 3) then
           match np_linalg_det R with
           | Raise e => Raise e
           | Ok d =>
               if almost_equal kw (np_scalar d) (np_scalar one)
               then Ok tt else Raise AssertionError
           end
         else Raise AssertionError
     end, w).
Proof.
  unfold assert_rotation_matrix, bind, lift, assert_array_almost_equal,
    ret, raise.
  destruct (np_dot R (np_T R)) as [RRt|]; trivial.
  destruct (almost_equal kw RRt (np_eye 3)); trivial.
  destruct (np_linalg_det R) as [d|]; trivial.
  destruct (almost_equal kw (np_scalar d) (np_scalar one)); trivial.
Qed.

(** On a 3x3 array both numpy calls succeed. *)
Lemma np_dot_T_3x3 (R : ndarray K) :
  shape R = [3; 3] -> exists RRt, np_dot R (np_T R) = Ok RRt.
Proof.
  intros Hs. unfold np_dot, np_T. rewrite Hs. simpl. eauto.
Qed.

Lemma np_linalg_det_3x3 (R : ndarray K) :
  shape R = [3; 3] -> exists d, np_linalg_det R = Ok d.
Proof.
  intros Hs. unfold np_linalg_det. rewrite Hs. simpl. eauto.
Qed.

(** C8: on a two-dimensional array, [assert_rotation_matrix(R)] returns
    exactly when [R R^T] agrees with the identity within tolerance and
    [det R] agrees with 1 within tolerance; on a 3x3 array it raises
    [AssertionError] exactly when one of the two checks fails; and it
    raises for every orthogonal 3x3 array of determinant -1, the
    tolerance telling -1 from 1. *)
Theorem assert_rotation_matrix_raises_iff :
  forall (kw : kwargs) (R : ndarray K) w,
    (ndim R = 2 ->
     (fst (assert_rotation_matrix kw R w) = Ok tt <->
      orthogonal_within kw R = true /\ unit_det_within kw R = true)) /\
    (shape R = [3; 3] ->
     (fst (assert_rotation_matrix kw R w) = Raise AssertionError <->
      orthogonal_within kw R = false \/ unit_det_within kw R = false)) /\
    (shape R = [3; 3] ->
     np_dot R (np_T R) = Ok (np_eye 3) ->
     np_linalg_det R = Ok (opp one) ->
     almost_equal kw (np_scalar (opp one)) (np_scalar one) = false ->
     assert_rotation_matrix kw R w = (Raise AssertionError, w)).
Proof.
  intros kw R w. rewrite assert_rotation_matrix_run.
  unfold orthogonal_within, unit_det_within. simpl. split; [|split].
  - intros _.
    destruct (np_dot R (np_T R)) as [RRt|]; [|split; [congruence|intros []; congruence]].
    destruct (almost_equal kw RRt (np_eye 3));
      [|split; [congruence|intros []; congruence]].
    destruct (np_linalg_det R) as [d|]; [|split; [congruence|intros []; congruence]].
    destruct (almost_equal kw (np_scalar d) (np_scalar one)); split;
      try congruence; auto; intros []; congruence.
  - intros Hs. destruct (np_dot_T_3x3 R Hs) as [RRt ->].
    destruct (np_linalg_det_3x3 R Hs) as [d ->].
    destruct (almost_equal kw RRt (np_eye 3));
      destruct (almost_equal kw (np_scalar d) (np_scalar one)); split;
      auto; try congruence; intros []; congruence.
  - intros _ Ho Hd Hneq. rewrite Ho, Hd, Hneq.
    destruct (almost_equal kw (np_eye 3) (np_eye 3)); reflexivity.
Qed.

(** C7: [assert_compact_axis_angle_equal(a1, a2)], the norms being their
    own absolute value, compares the normal form of [-a1] with that of
    [a2] when the norm of [a1] [==] pi, the norm of [a2] [==] pi and the
    sign patterns disagree, and compares the normal forms of [a1] and
    [a2] as given in every other case. *)
Theorem assert_compact_axis_angle_equal_policy :
  forall (kw : kwargs) (a1 a2 : ndarray K) w,
    shape a1 = shape a2 ->
    absv (np_linalg_norm a1) = np_linalg_norm a1 ->
    absv (np_linalg_norm a2) = np_linalg_norm a2 ->
    (eqb (np_linalg_norm a1) np_pi = true /\
     eqb (np_linalg_norm a2) np_pi = true /\
     sign_patterns_disagree a1 a2 = true ->
     assert_compact_axis_angle_equal kw a1 a2 w
     = compare_images norm_compact_axis_angle kw (np_neg a1) a2 w) /\
    (eqb (np_linalg_norm a1) np_pi = false \/
     eqb (np_linalg_norm a2) np_pi = false \/
     sign_patterns_disagree a1 a2 = false ->
     assert_compact_axis_angle_equal kw a1 a2 w
     = compare_images norm_compact_axis_angle kw a1 a2 w).
Proof.
  intros kw a1 a2 w Hs Hn1 Hn2.
  unfold assert_compact_axis_angle_equal, half_turn_flip.
  rewrite Hn1, Hn2, (signs_differ_same_shape a1 a2 Hs).
  unfold bind, lift. split.
  - intros (H1 & H2 & H3). rewrite H1, H2, H3. reflexivity.
  - intros H.
    destruct (eqb (np_linalg_norm a1) np_pi); [|reflexivity].
    destruct (eqb (np_linalg_norm a2) np_pi); [|reflexivity].
    destruct (sign_patterns_disagree a1 a2); [|reflexivity].
    destruct H as [H|[H|H]]; discriminate H.
Qed.

(** Comparing two arrays with one normal form. *)
Lemma compare_images_same f (kw : kwargs) (x y n : ndarray K) w :
  f x = Ok n -> f y = Ok n -> almost_equal kw n n = true ->
  compare_images f kw x y w = (Ok tt, w).
Proof.
  intros Hx Hy Hn.
  unfold compare_images, bind, lift, assert_array_almost_equal.
  now rewrite Hx, Hy, Hn.
Qed.

Lemma assert_axis_angle_equal_run (kw : kwargs) (a1 a2 : ndarray K) w :
  shape a1 = shape a2 ->
  assert_axis_angle_equal kw a1 a2 w
  = compare_images norm_axis_angle kw
      (if sign_patterns_disagree a1 a2 then np_neg a1 else a1) a2 w.
Proof.
  intros Hs. unfold assert_axis_angle_equal.
  rewrite (signs_differ_same_shape a1 a2 Hs). reflexivity.
Qed.

Lemma sign_patterns_agree_self (a : ndarray K) :
  (forall x : T, eqb x x = true) -> sign_patterns_disagree a a = false.
Proof.
  intros Hrefl. unfold sign_patterns_disagree.
  induction (data a) as [|x d IH]; simpl; [trivial|].
  now rewrite Hrefl, IH.
Qed.

(** An array whose every entry has the sign of its negation is its own
    negation, when only zero is its own negation's sign-mate. *)
Lemma sign_patterns_agree_neg (a : ndarray K) :
  eqb_laws K ->
  (forall x : T, sgn x = sgn (opp x) -> opp x = x) ->
  sign_patterns_disagree a (np_neg a) = false -> np_neg a = a.
Proof.
  intros Heqb Hsgn. destruct a as [s d].
  unfold sign_patterns_disagree, np_neg. simpl. intros H. f_equal.
  induction d as [|x d IH]; simpl in *; [trivial|].
  apply orb_false_iff in H. destruct H as [Hx Hd].
  apply negb_false_iff, Heqb in Hx. rewrite (Hsgn x Hx). f_equal. auto.
Qed.

(** C6: on arrays of one shape, [assert_axis_angle_equal(a1, a2)]
    replaces [a1] by [-a1], all four entries negated, exactly when the
    raw sign patterns disagree, and then compares the normal forms of
    both within tolerance. Hence it returns for [a] against itself; for
    [a] against [-a]; and for [(axis, angle)] against
    [(-axis, angle')] with disagreeing signs whenever the normaliser
    sends [(-axis, -angle)] and [(-axis, angle')] to one normal form,
    which at the half turn reads [(axis, pi)] against [(-axis, pi)]. The
    normal form is always one the comparison accepts against itself. *)
Theorem assert_axis_angle_equal_policy :
  (forall (kw : kwargs) (a1 a2 : ndarray K) w,
      shape a1 = shape a2 ->
      (sign_patterns_disagree a1 a2 = true ->
       assert_axis_angle_equal kw a1 a2 w
       = compare_images norm_axis_angle kw (np_neg a1) a2 w) /\
      (sign_patterns_disagree a1 a2 = false ->
       assert_axis_angle_equal kw a1 a2 w
       = compare_images norm_axis_angle kw a1 a2 w)) /\
  (forall x y z angle : T,
      np_neg (np_array1 [x; y; z; angle])
      = np_array1 [opp x; opp y; opp z; opp angle]) /\
  (forall (kw : kwargs) (a n : ndarray K) w,
      (forall x : T, eqb x x = true) ->
      norm_axis_angle a = Ok n -> almost_equal kw n n = true ->
      assert_axis_angle_equal kw a a w = (Ok tt, w)) /\
  (forall (kw : kwargs) (a n : ndarray K) w,
      eqb_laws K ->
      (forall x : T, sgn x = sgn (opp x) -> opp x = x) ->
      norm_axis_angle (np_neg a) = Ok n -> almost_equal kw n n = true ->
      assert_axis_angle_equal kw a (np_neg a) w = (Ok tt, w)) /\
  (forall (kw : kwargs) (x y z angle angle' : T) (n : ndarray K) w,
      sign_patterns_disagree (np_array1 [x; y; z; angle])
        (np_array1 [opp x; opp y; opp z; angle']) = true ->
      norm_axis_angle (np_array1 [opp x; opp y; opp z; opp angle]) = Ok n ->
      norm_axis_angle (np_array1 [opp x; opp y; opp z; angle']) = Ok n ->
      almost_equal kw n n = true ->
      assert_axis_angle_equal kw (np_array1 [x; y; z; angle])
        (np_array1 [opp x; opp y; opp z; angle']) w = (Ok tt, w)) /\
  (forall (kw : kwargs) (x y z : T) (n : ndarray K) w,
      sign_patterns_disagree (np_array1 [x; y; z; np_pi])
        (np_array1 [opp x; opp y; opp z; np_pi]) = true ->
      norm_axis_angle (np_array1 [opp x; opp y; opp z; opp np_pi]) = Ok n ->
      norm_axis_angle (np_array1 [opp x; opp y; opp z; np_pi]) = Ok n ->
      almost_equal kw n n = true ->
      assert_axis_angle_equal kw (np_array1 [x; y; z; np_pi])
        (np_array1 [opp x; opp y; opp z; np_pi]) w = (Ok tt, w)).
Proof.
  assert (Hgen : forall (kw : kwargs) (x y z angle angle' : T) n w,
      sign_patterns_disagree (np_array1 [x; y; z; angle])
        (np_array1 [opp x; opp y; opp z; angle']) = true ->
      norm_axis_angle (np_array1 [opp x; opp y; opp z; opp angle]) = Ok n ->
      norm_axis_angle (np_array1 [opp x; opp y; opp z; angle']) = Ok n ->
      almost_equal kw n n = true ->
      assert_axis_angle_equal kw (np_array1 [x; y; z; angle])
        (np_array1 [opp x; opp y; opp z; angle']) w = (Ok tt, w)).
  { intros kw x y z angle angle' n w Hd H1 H2 Hn.
    rewrite assert_axis_angle_equal_run by reflexivity. rewrite Hd.
    now apply compare_images_same with (n := n). }
  split; [|split; [|split; [|split; [|split]]]].
  - intros kw a1 a2 w Hs. rewrite (assert_axis_angle_equal_run kw a1 a2 w Hs).
    split; intros ->; reflexivity.
  - reflexivity.
  - intros kw a n w Hrefl Hn Hnn.
    rewrite assert_axis_angle_equal_run by reflexivity.
    rewrite (sign_patterns_agree_self a Hrefl).
    now apply compare_images_same with (n := n).
  - intros kw a n w Heqb Hsgn Hn Hnn.
    rewrite assert_axis_angle_equal_run by reflexivity.
    destruct (sign_patterns_disagree a (np_neg a)) eqn:Hd.
    + now apply compare_images_same with (n := n).
    + rewrite (sign_patterns_agree_neg a Heqb Hsgn Hd) in Hn |- *.
      now apply compare_images_same with (n := n).
  - exact Hgen.
  - intros kw x y z n w. apply Hgen.
Qed.

End TestingFacts.

(** ** Linear algebra on rows *)

Section LinearAlgebra.

Context {K : Scalar}.
Hypothesis Rth : ring_theory zero one add mul sub opp (@eq T).

Add Ring Kring : Rth.

Ltac entries := cbn; repeat (f_equal; try ring).

(** *** Shapes *)

Lemma shaped_transpose3 (M : matrix K) :
  shaped 3 3 M = true -> shaped 3 3 (transpose 3 M) = true.
Proof. unfold shaped at 1. intros H. explode H. reflexivity. Qed.

Lemma shaped_matmul (c : nat) (A B : matrix K) :
  shaped (length A) c (matmul c A B) = true.
Proof.
  unfold shaped, matmul. rewrite length_map, Nat.eqb_refl. simpl.
  apply forallb_forall. intros row Hin. apply in_map_iff in Hin.
  destruct Hin as (r & <- & _). now rewrite length_map, length_seq, Nat.eqb_refl.
Qed.

Lemma shaped_length (r c : nat) (M : matrix K) :
  shaped r c M = true -> length M = r.
Proof.
  unfold shaped. intros H. apply andb_true_iff in H. now apply Nat.eqb_eq.
Qed.

Lemma shaped_matmul3 (A B : matrix K) :
  shaped 3 3 A = true -> shaped 3 3 (matmul 3 A B) = true.
Proof.
  intros HA. rewrite <- (shaped_length _ _ _ HA) at 1. apply shaped_matmul.
Qed.

Lemma shaped_matmul4 (A B : matrix K) :
  shaped 4 4 A = true -> shaped 4 4 (matmul 4 A B) = true.
Proof.
  intros HA. rewrite <- (shaped_length _ _ _ HA) at 1. apply shaped_matmul.
Qed.

Lemma shaped_adjugate3 (M : matrix K) : shaped 3 3 (adjugate 3 M) = true.
Proof. reflexivity. Qed.

Lemma shaped_homogeneous (M : matrix K) (v : vector K) :
  shaped 3 3 M = true -> length v = 3 -> shaped 4 4 (homogeneous M v) = true.
Proof.
  unfold shaped. intros HM Hv. explode HM. explode Hv. reflexivity.
Qed.

Lemma shaped_rows3 (d : list T) : length d = 9 -> shaped 3 3 (rows 3 3 d) = true.
Proof. intros H. explode H. reflexivity. Qed.

Lemma shaped_rows4 (d : list T) : length d = 16 -> shaped 4 4 (rows 4 4 d) = true.
Proof. intros H. explode H. reflexivity. Qed.

Lemma length_matvec (M : matrix K) (v : vector K) :
  length (matvec M v) = length M.
Proof. unfold matvec. apply length_map. Qed.

(** Rows and buffers determine each other. *)
Lemma rows_concat3 (M : matrix K) :
  shaped 3 3 M = true -> rows 3 3 (List.concat M) = M.
Proof. unfold shaped. intros H. explode H. reflexivity. Qed.

Lemma rows_concat4 (M : matrix K) :
  shaped 4 4 M = true -> rows 4 4 (List.concat M) = M.
Proof. unfold shaped. intros H. explode H. reflexivity. Qed.

Lemma concat_rows4 (d : list T) : length d = 16 -> List.concat (rows 4 4 d) = d.
Proof. intros H. explode H. reflexivity. Qed.

Lemma length_concat3 (M : matrix K) :
  shaped 3 3 M = true -> length (List.concat M) = 9.
Proof. unfold shaped. intros H. explode H. reflexivity. Qed.

(** *** Ring identities *)

Lemma matmul_assoc3 (A B C : matrix K) :
  shaped 3 3 A = true -> shaped 3 3 B = true -> shaped 3 3 C = true ->
  matmul 3 (matmul 3 A B) C = matmul 3 A (matmul 3 B C).
Proof.
  unfold shaped. intros HA HB HC. explode HA. explode HB. explode HC.
  entries.
Qed.

Lemma matmul_assoc4 (A B C : matrix K) :
  shaped 4 4 A = true -> shaped 4 4 B = true -> shaped 4 4 C = true ->
  matmul 4 (matmul 4 A B) C = matmul 4 A (matmul 4 B C).
Proof.
  unfold shaped. intros HA HB HC. explode HA. explode HB. explode HC.
  entries.
Qed.

Lemma matmul_identity_l3 (A : matrix K) :
  shaped 3 3 A = true -> matmul 3 (identity 3) A = A.
Proof. unfold shaped. intros HA. explode HA. entries. Qed.

Lemma matmul_identity_r3 (A : matrix K) :
  shaped 3 3 A = true -> matmul 3 A (identity 3) = A.
Proof. unfold shaped. intros HA. explode HA. entries. Qed.

Lemma matmul_identity_l4 (A : matrix K) :
  shaped 4 4 A = true -> matmul 4 (identity 4) A = A.
Proof. unfold shaped. intros HA. explode HA. entries. Qed.

Lemma matmul_identity_r4 (A : matrix K) :
  shaped 4 4 A = true -> matmul 4 A (identity 4) = A.
Proof. unfold shaped. intros HA. explode HA. entries. Qed.

Lemma scale_one3 (A : matrix K) : shaped 3 3 A = true -> scale one A = A.
Proof. unfold shaped. intros HA. explode HA. entries. Qed.

Lemma transpose_matmul3 (A B : matrix K) :
  shaped 3 3 A = true -> shaped 3 3 B = true ->
  transpose 3 (matmul 3 A B) = matmul 3 (transpose 3 B) (transpose 3 A).
Proof.
  unfold shaped. intros HA HB. explode HA. explode HB. entries.
Qed.

(** The adjugate is a left inverse up to the determinant. *)
Lemma adjugate_matmul3 (M : matrix K) :
  shaped 3 3 M = true ->
  matmul 3 (adjugate 3 M) M = scale (det 3 M) (identity 3).
Proof. unfold shaped. intros HM. explode HM. entries. Qed.

(** An orthogonal matrix of determinant one has its transpose as a left
    inverse too. *)
Lemma orthogonal_transpose (M : matrix K) :
  shaped 3 3 M = true ->
  matmul 3 M (transpose 3 M) = identity 3 ->
  det 3 M = one ->
  matmul 3 (transpose 3 M) M = identity 3.
Proof.
  intros HM HO HD.
  assert (Hadj : adjugate 3 M = transpose 3 M).
  { rewrite <- (matmul_identity_r3 (adjugate 3 M)) by apply shaped_adjugate3.
    rewrite <- HO.
    rewrite <- matmul_assoc3
      by (trivial; apply shaped_adjugate3 || now apply shaped_transpose3).
    rewrite (adjugate_matmul3 M HM), HD.
    rewrite scale_one3 by reflexivity.
    now apply matmul_identity_l3, shaped_transpose3. }
  rewrite <- Hadj, (adjugate_matmul3 M HM), HD.
  now apply scale_one3.
Qed.

(** Two homogeneous transforms multiply block by block. *)
Lemma homogeneous_matmul (M1 M2 : matrix K) (v1 v2 : vector K) :
  shaped 3 3 M1 = true -> shaped 3 3 M2 = true ->
  length v1 = 3 -> length v2 = 3 ->
  matmul 4 (homogeneous M1 v1) (homogeneous M2 v2)
  = homogeneous (matmul 3 M1 M2) (vadd (matvec M1 v2) v1).
Proof.
  unfold shaped. intros H1 H2 L1 L2.
  explode H1. explode H2. explode L1. explode L2. entries.
Qed.

Lemma matvec_matmul3 (A B : matrix K) (v : vector K) :
  shaped 3 3 A = true -> shaped 3 3 B = true -> length v = 3 ->
  matvec A (matvec B v) = matvec (matmul 3 A B) v.
Proof.
  unfold shaped. intros HA HB Hv. explode HA. explode HB. explode Hv. entries.
Qed.

Lemma matvec_matmul4 (A B : matrix K) (v : vector K) :
  shaped 4 4 A = true -> shaped 4 4 B = true -> length v = 4 ->
  matvec A (matvec B v) = matvec (matmul 4 A B) v.
Proof.
  unfold shaped. intros HA HB Hv. explode HA. explode HB. explode Hv. entries.
Qed.

Lemma matvec_identity4 (v : vector K) :
  length v = 4 -> matvec (identity 4) v = v.
Proof. intros Hv. explode Hv. entries. Qed.

(** The translation of [A B] vanishes when [B] carries [-R^T p]. *)
Lemma cancel_translation_r (M : matrix K) (v : vector K) :
  shaped 3 3 M = true -> length v = 3 ->
  vadd (matvec M (map opp (matvec (transpose 3 M) v))) v
  = vadd (map opp (matvec (matmul 3 M (transpose 3 M)) v)) v.
Proof.
  unfold shaped. intros HM Hv. explode HM. explode Hv. entries.
Qed.

Lemma cancel_translation_l (M : matrix K) (v : vector K) :
  shaped 3 3 M = true -> length v = 3 ->
  vadd (matvec (transpose 3 M) v) (map opp (matvec (transpose 3 M) v))
  = [zero; zero; zero].
Proof.
  unfold shaped. intros HM Hv. explode HM. explode Hv. entries.
Qed.

Lemma cancel_identity (v : vector K) :
  length v = 3 ->
  vadd (map opp (matvec (identity 3) v)) v = [zero; zero; zero].
Proof. intros Hv. explode Hv. entries. Qed.

Lemma homogeneous_identity :
  homogeneous (identity 3) [zero; zero; zero] = identity 4.
Proof. reflexivity. Qed.

(** The translation of the inverse of a composition, with the product
    [R2^T R2] kept apart. *)
Lemma inverse_translation (M1 M2 : matrix K) (v1 v2 : vector K) :
  shaped 3 3 M1 = true -> shaped 3 3 M2 = true ->
  length v1 = 3 -> length v2 = 3 ->
  map opp (matvec (transpose 3 (matmul 3 M2 M1)) (vadd (matvec M2 v1) v2))
  = vadd (matvec (transpose 3 M1) (map opp (matvec (transpose 3 M2) v2)))
         (map opp (matvec (transpose 3 M1)
                          (matvec (matmul 3 (transpose 3 M2) M2) v1))).
Proof.
  unfold shaped. intros H1 H2 L1 L2.
  explode H1. explode H2. explode L1. explode L2. entries.
Qed.

Lemma matvec_identity3 (v : vector K) :
  length v = 3 -> matvec (identity 3) v = v.
Proof. intros Hv. explode Hv. entries. Qed.

(** The blocks of a homogeneous transform. *)
Lemma rotation_block (M : matrix K) (v : vector K) :
  shaped 3 3 M = true -> length v = 3 ->
  map (firstn 3) (firstn 3 (homogeneous M v)) = M.
Proof. unfold shaped. intros HM Hv. explode HM. explode Hv. reflexivity. Qed.

Lemma translation_column (M : matrix K) (v : vector K) :
  shaped 3 3 M = true -> length v = 3 ->
  column 3 (firstn 3 (homogeneous M v)) = v.
Proof. unfold shaped. intros HM Hv. explode HM. explode Hv. reflexivity. Qed.

(** *** Inverses of homogeneous transforms, on rows *)

Lemma homogeneous_right_inverse (M : matrix K) (v : vector K) :
  shaped 3 3 M = true -> length v = 3 ->
  matmul 3 M (transpose 3 M) = identity 3 ->
  matmul 4 (homogeneous M v)
    (homogeneous (transpose 3 M) (map opp (matvec (transpose 3 M) v)))
  = identity 4.
Proof.
  intros HM Hv HO.
  pose proof (shaped_transpose3 M HM) as HMt.
  rewrite homogeneous_matmul; trivial.
  rewrite cancel_translation_r, HO, cancel_identity; trivial.
Qed.

Lemma homogeneous_left_inverse (M : matrix K) (v : vector K) :
  shaped 3 3 M = true -> length v = 3 ->
  matmul 3 (transpose 3 M) M = identity 3 ->
  matmul 4
    (homogeneous (transpose 3 M) (map opp (matvec (transpose 3 M) v)))
    (homogeneous M v)
  = identity 4.
Proof.
  intros HM Hv HO.
  pose proof (shaped_transpose3 M HM) as HMt.
  rewrite homogeneous_matmul; trivial.
  rewrite cancel_translation_l, HO; trivial.
Qed.

(** The product of two matrices with transposes as left inverses has
    its transpose as left inverse. *)
Lemma orthogonal_product (M1 M2 : matrix K) :
  shaped 3 3 M1 = true -> shaped 3 3 M2 = true ->
  matmul 3 (transpose 3 M1) M1 = identity 3 ->
  matmul 3 (transpose 3 M2) M2 = identity 3 ->
  matmul 3 (transpose 3 (matmul 3 M2 M1)) (matmul 3 M2 M1) = identity 3.
Proof.
  intros H1 H2 O1 O2.
  pose proof (shaped_transpose3 M1 H1) as H1t.
  pose proof (shaped_transpose3 M2 H2) as H2t.
  rewrite transpose_matmul3 by trivial.
  rewrite matmul_assoc3 by (trivial; now apply shaped_matmul3).
  rewrite <- (matmul_assoc3 (transpose 3 M2) M2 M1) by trivial.
  rewrite O2, matmul_identity_l3 by trivial. exact O1.
Qed.

(** *** From arrays to rows *)

Lemma Ok_inj {A : Type} (a b : A) : Ok a = Ok b -> a = b.
Proof. intros H. now injection H. Qed.

Lemma data_of_rows (r c : nat) (M : matrix K) :
  data (of_rows r c M) = List.concat M.
Proof. reflexivity. Qed.

Lemma transform_from_rows (R p : ndarray K) :
  length (data R) = 9 -> length (data p) = 3 ->
  rows 4 4 (data (transform_from R p))
  = homogeneous (rows 3 3 (data R)) (data p).
Proof.
  intros HR Hp. unfold transform_from, of_rows. simpl.
  apply rows_concat4, shaped_homogeneous; trivial. now apply shaped_rows3.
Qed.

Lemma invert_homogeneous (M : matrix K) (v : vector K) :
  shaped 3 3 M = true -> length v = 3 ->
  invert_transform (of_rows 4 4 (homogeneous M v))
  = Ok (of_rows 4 4 (homogeneous (transpose 3 M)
                       (map opp (matvec (transpose 3 M) v)))).
Proof.
  intros HM Hv. unfold invert_transform.
  replace (shape_eqb (shape (of_rows 4 4 (homogeneous M v))) [4; 4])
    with true by reflexivity.
  rewrite data_of_rows.
  rewrite rows_concat4 by now apply shaped_homogeneous.
  rewrite rotation_block, translation_column by trivial.
  unfold transform_from. rewrite data_of_rows.
  now rewrite rows_concat3 by now apply shaped_transpose3.
Qed.

Lemma np_dot_4x4 (A X : ndarray K) :
  shape A = [4; 4] -> shape X = [4; 4] ->
  np_dot A X
  = Ok (of_rows 4 4 (matmul 4 (rows 4 4 (data A)) (rows 4 4 (data X)))).
Proof. intros HA HX. unfold np_dot. now rewrite HA, HX. Qed.

Lemma of_rows4_inj (M N : matrix K) :
  shaped 4 4 M = true -> shaped 4 4 N = true ->
  of_rows 4 4 M = of_rows 4 4 N -> M = N.
Proof.
  intros HM HN H. unfold of_rows in H. injection H as H.
  rewrite <- (rows_concat4 M HM), <- (rows_concat4 N HN). now rewrite H.
Qed.

Lemma of_rows3_inj (M N : matrix K) :
  shaped 3 3 M = true -> shaped 3 3 N = true ->
  of_rows 3 3 M = of_rows 3 3 N -> M = N.
Proof.
  intros HM HN H. unfold of_rows in H. injection H as H.
  rewrite <- (rows_concat3 M HM), <- (rows_concat3 N HN). now rewrite H.
Qed.

(** What [is_rotation_matrix] says of the rows. *)
Lemma rotation_rows (R : ndarray K) :
  is_rotation_matrix R ->
  shaped 3 3 (rows 3 3 (data R)) = true /\
  matmul 3 (rows 3 3 (data R)) (transpose 3 (rows 3 3 (data R))) = identity 3 /\
  matmul 3 (transpose 3 (rows 3 3 (data R))) (rows 3 3 (data R)) = identity 3.
Proof.
  intros (Hs & Hl & Ho & Hd).
  pose proof (shaped_rows3 _ Hl) as HM.
  assert (HO : matmul 3 (rows 3 3 (data R)) (transpose 3 (rows 3 3 (data R)))
               = identity 3).
  { unfold np_dot, np_T in Ho. rewrite Hs in Ho. simpl shape in Ho.
    simpl Nat.eqb in Ho. cbv iota in Ho. apply Ok_inj in Ho.
    rewrite data_of_rows in Ho.
    rewrite rows_concat3 in Ho by now apply shaped_transpose3.
    apply of_rows3_inj; trivial. }
  split; [trivial|]. split; [trivial|].
  apply orthogonal_transpose; trivial.
  unfold np_linalg_det in Hd. rewrite Hs in Hd. simpl Nat.eqb in Hd.
  cbv iota in Hd. now apply Ok_inj in Hd.
Qed.

(** C1: for a rotation matrix [R] and a 3-vector [p],
    [invert_transform(transform_from(R, p))] returns the transform with
    rotation block [R^T] and translation [-(R^T p)], this transform is a
    two-sided inverse of [transform_from(R, p)], and every two-sided
    inverse of [transform_from(R, p)] among the 4x4 arrays equals it. *)
Theorem invert_transform_true_inverse (R p : ndarray K) :
  is_rotation_matrix R -> shape p = [3] -> length (data p) = 3 ->
  exists Rtp,
    np_dot (np_T R) p = Ok Rtp /\
    invert_transform (transform_from R p)
    = Ok (transform_from (np_T R) (np_neg Rtp)) /\
    is_inverse (transform_from R p) (transform_from (np_T R) (np_neg Rtp)) /\
    (forall X, shape X = [4; 4] -> length (data X) = 16 ->
               is_inverse (transform_from R p) X ->
               X = transform_from (np_T R) (np_neg Rtp)).
Proof.
  intros HR Hsp Hp.
  destruct (rotation_rows R HR) as (HM & HO & HO').
  destruct HR as (Hs & Hl & _ & _).
  pose proof (shaped_transpose3 _ HM) as HMt.
  set (M := rows 3 3 (data R)) in *.
  set (v := data p) in *.
  assert (HT : np_T R = of_rows 3 3 (transpose 3 M)).
  { unfold np_T. now rewrite Hs. }
  exists (np_array1 (matvec (transpose 3 M) v)).
  assert (Hdot : np_dot (np_T R) p = Ok (np_array1 (matvec (transpose 3 M) v))).
  { rewrite HT. unfold np_dot. simpl shape. rewrite Hsp. simpl Nat.eqb.
    cbv iota. now rewrite data_of_rows, rows_concat3. }
  assert (HB : transform_from (np_T R) (np_neg (np_array1 (matvec (transpose 3 M) v)))
               = of_rows 4 4 (homogeneous (transpose 3 M)
                                (map opp (matvec (transpose 3 M) v)))).
  { rewrite HT. unfold transform_from.
    now rewrite data_of_rows, rows_concat3. }
  assert (HA : transform_from R p = of_rows 4 4 (homogeneous M v)) by reflexivity.
  assert (HsA : shaped 4 4 (homogeneous M v) = true)
    by now apply shaped_homogeneous.
  assert (HsB : shaped 4 4 (homogeneous (transpose 3 M)
                              (map opp (matvec (transpose 3 M) v))) = true).
  { now apply shaped_homogeneous. }
  rewrite HB, HA.
  split; [exact Hdot|]. split; [now apply invert_homogeneous|].
  split.
  - unfold is_inverse. rewrite !np_dot_4x4 by reflexivity.
    rewrite !data_of_rows, !rows_concat4 by trivial.
    rewrite homogeneous_right_inverse, homogeneous_left_inverse by trivial.
    split; reflexivity.
  - intros X HsX HlX [HXr _].
    rewrite np_dot_4x4 in HXr by (trivial; reflexivity).
    apply Ok_inj in HXr.
    rewrite data_of_rows, rows_concat4 in HXr by trivial.
    pose proof (shaped_rows4 _ HlX) as HsMX.
    apply of_rows4_inj in HXr; [|now apply shaped_matmul4|reflexivity].
    assert (HMX : rows 4 4 (data X)
                  = homogeneous (transpose 3 M)
                      (map opp (matvec (transpose 3 M) v))).
    { rewrite <- (matmul_identity_l4 (rows 4 4 (data X))) by trivial.
      rewrite <- (homogeneous_left_inverse M v HM Hp HO').
      rewrite matmul_assoc4 by trivial.
      rewrite HXr. now apply matmul_identity_r4. }
    destruct X as [sX dX]. simpl in *. subst sX. unfold of_rows.
    f_equal. rewrite <- HMX. symmetry. now apply concat_rows4.
Qed.

(** *** [concat] and [transform] on rows *)

Lemma concat_of_rows (X Y : matrix K) :
  shaped 4 4 X = true -> shaped 4 4 Y = true ->
  concat (of_rows 4 4 X) (of_rows 4 4 Y) = of_rows 4 4 (matmul 4 Y X).
Proof.
  intros HX HY. unfold concat. now rewrite !data_of_rows, !rows_concat4.
Qed.

Lemma transform_point (X : matrix K) (v : vector K) :
  shaped 4 4 X = true -> length v = 4 ->
  transform (of_rows 4 4 X) (np_array1 v) = Ok (np_array1 (matvec X v)).
Proof.
  intros HX Hv. unfold transform. simpl shape. rewrite Hv. simpl Nat.eqb.
  cbv iota. now rewrite data_of_rows, rows_concat4.
Qed.

Lemma np_array1_data (p : ndarray K) (n : nat) :
  shape p = [n] -> length (data p) = n -> np_array1 (data p) = p.
Proof.
  destruct p as [s d]. simpl. intros -> <-. reflexivity.
Qed.

Lemma is_transform_rows (A : ndarray K) :
  is_transform A ->
  exists M v,
    A = of_rows 4 4 (homogeneous M v) /\
    shaped 3 3 M = true /\ length v = 3 /\
    matmul 3 (transpose 3 M) M = identity 3.
Proof.
  intros (R & p & HR & _ & Hp & ->).
  destruct (rotation_rows R HR) as (HM & _ & HO').
  exists (rows 3 3 (data R)), (data p). repeat split; trivial.
Qed.

(** C2: for homogeneous transforms [A2B] and [B2C] and a homogeneous
    point [p_A], [transform(concat(A2B, B2C), p_A)] equals
    [transform(B2C, transform(A2B, p_A))]; all three inversions succeed
    and [invert_transform(concat(A2B, B2C))] equals
    [concat(invert_transform(B2C), invert_transform(A2B))]; and either of
    them maps the image of [p_A] back to [p_A]. *)
Theorem concat_composes_and_inverts (A2B B2C p_A : ndarray K) :
  is_transform A2B -> is_transform B2C ->
  shape p_A = [4] -> length (data p_A) = 4 ->
  transform (concat A2B B2C) p_A = rbind (transform A2B p_A) (transform B2C) /\
  exists p_C B2A C2B,
    transform (concat A2B B2C) p_A = Ok p_C /\
    invert_transform A2B = Ok B2A /\
    invert_transform B2C = Ok C2B /\
    invert_transform (concat A2B B2C) = Ok (concat C2B B2A) /\
    rbind (invert_transform (concat A2B B2C)) (fun C2A => transform C2A p_C)
    = Ok p_A /\
    transform (concat C2B B2A) p_C = Ok p_A.
Proof.
  intros HA HB Hsp Hp.
  destruct (is_transform_rows A2B HA) as (M1 & v1 & -> & H1 & L1 & O1).
  destruct (is_transform_rows B2C HB) as (M2 & v2 & -> & H2 & L2 & O2).
  rewrite <- (np_array1_data p_A 4 Hsp Hp).
  set (v := data p_A) in *.
  pose proof (shaped_homogeneous M1 v1 H1 L1) as HH1.
  pose proof (shaped_homogeneous M2 v2 H2 L2) as HH2.
  pose proof (shaped_transpose3 M1 H1) as H1t.
  pose proof (shaped_transpose3 M2 H2) as H2t.
  pose proof (shaped_matmul3 M2 M1 H2) as H21.
  set (w := vadd (matvec M2 v1) v2).
  assert (Lw : length w = 3).
  { unfold shaped in H2. explode H2. explode L1. explode L2. reflexivity. }
  assert (Hc : concat (of_rows 4 4 (homogeneous M1 v1))
                      (of_rows 4 4 (homogeneous M2 v2))
               = of_rows 4 4 (homogeneous (matmul 3 M2 M1) w)).
  { rewrite concat_of_rows by trivial. now rewrite homogeneous_matmul. }
  pose proof (shaped_homogeneous _ w H21 Lw) as HHc.
  assert (Hinv : of_rows 4 4 (homogeneous (transpose 3 (matmul 3 M2 M1))
                   (map opp (matvec (transpose 3 (matmul 3 M2 M1)) w)))
                 = concat
                     (of_rows 4 4 (homogeneous (transpose 3 M2)
                        (map opp (matvec (transpose 3 M2) v2))))
                     (of_rows 4 4 (homogeneous (transpose 3 M1)
                        (map opp (matvec (transpose 3 M1) v1))))).
  { rewrite concat_of_rows by now apply shaped_homogeneous.
    rewrite homogeneous_matmul by trivial.
    unfold w. rewrite inverse_translation by trivial.
    rewrite O2, matvec_identity3 by trivial.
    now rewrite transpose_matmul3. }
  assert (Hback : transform
                    (of_rows 4 4 (homogeneous (transpose 3 (matmul 3 M2 M1))
                       (map opp (matvec (transpose 3 (matmul 3 M2 M1)) w))))
                    (np_array1 (matvec (homogeneous (matmul 3 M2 M1) w) v))
                  = Ok (np_array1 v)).
  { rewrite transform_point;
      [|apply shaped_homogeneous; trivial; now apply shaped_transpose3
       |rewrite length_matvec; now apply shaped_length in HHc].
    rewrite matvec_matmul4;
      [|apply shaped_homogeneous; trivial; now apply shaped_transpose3
       |trivial|trivial].
    rewrite homogeneous_left_inverse; trivial.
    - now rewrite matvec_identity4.
    - now apply orthogonal_product. }
  split.
  - rewrite Hc. rewrite !transform_point by trivial. simpl rbind.
    rewrite transform_point;
      [|trivial|rewrite length_matvec; now apply shaped_length in HH1].
    rewrite matvec_matmul4 by trivial.
    now rewrite homogeneous_matmul.
  - exists (np_array1 (matvec (homogeneous (matmul 3 M2 M1) w) v)).
    exists (of_rows 4 4 (homogeneous (transpose 3 M1)
                           (map opp (matvec (transpose 3 M1) v1)))).
    exists (of_rows 4 4 (homogeneous (transpose 3 M2)
                           (map opp (matvec (transpose 3 M2) v2)))).
    rewrite Hc, <- Hinv.
    rewrite !invert_homogeneous by trivial.
    rewrite transform_point by trivial. simpl rbind.
    repeat split; trivial.
Qed.

End LinearAlgebra.

(** ** Shapes: invalid arguments and batches of points *)

Section Shapes.

Context {K : Scalar}.

Lemma length_rows (n c : nat) (d : list T) : length (rows n c d) = n.
Proof.
  revert d. induction n as [|n IH]; intros d; simpl; [trivial|].
  now rewrite IH.
Qed.

(** Every row of a well-formed buffer has the announced length. *)
Lemma rows_row_length (n c : nat) (d : list T) :
  length d = n * c -> Forall (fun r => length r = c) (rows n c d).
Proof.
  revert d. induction n as [|n IH]; intros d Hd; simpl; constructor.
  - rewrite length_firstn. simpl in Hd. lia.
  - apply IH. rewrite length_skipn. simpl in Hd. lia.
Qed.

Lemma transform_row (A2B : ndarray K) (row : vector K) :
  length row = 4 ->
  transform A2B (np_array1 row)
  = Ok (np_array1 (matvec (rows 4 4 (data A2B)) row)).
Proof.
  intros Hrow. unfold transform. simpl shape. now rewrite Hrow.
Qed.

(** C3: [invert_transform] raises [ValueError] for every array whose
    shape is not (4, 4), among them the 3x3 identity, and [transform]
    raises [ValueError] for every point argument whose shape is neither
    (4,) nor (n, 4), among them an array of shape (2, 2, 4); a raise
    carries no array. *)
Theorem invalid_shapes_raise :
  (forall A : ndarray K,
      shape A <> [4; 4] -> invert_transform A = Raise ValueError) /\
  invert_transform (np_eye 3) = Raise ValueError /\
  (forall A P : ndarray K,
      shape P <> [4] -> (forall n, shape P <> [n; 4]) ->
      transform A P = Raise ValueError) /\
  (forall A : ndarray K, transform A (np_zeros [2; 2; 4]) = Raise ValueError).
Proof.
  split; [|split; [|split]].
  - intros A HA. unfold invert_transform.
    destruct (shape_eqb (shape A) [4; 4]) eqn:E; [|reflexivity].
    unfold shape_eqb in E.
    destruct (list_eq_dec Nat.eq_dec (shape A) [4; 4]); congruence.
  - reflexivity.
  - intros A P H1 H2. unfold transform.
    destruct (shape P) as [|c [|c' [|]]]; trivial.
    + destruct (Nat.eqb c 4) eqn:E; [|reflexivity].
      apply Nat.eqb_eq in E. subst c. congruence.
    + destruct (Nat.eqb c' 4) eqn:E; [|reflexivity].
      apply Nat.eqb_eq in E. subst c'. now destruct (H2 c).
  - reflexivity.
Qed.

(** C4: for a two-dimensional array [P] of [n] homogeneous 4-vectors,
    [transform(A2B, P)] returns the stack of the results of
    [transform(A2B, P[i])] for the rows [P[i]] one by one, a batch of the
    shape of [P]; and a single 4-vector is mapped to a single 4-vector. *)
Theorem transform_batch_rowwise (A2B P : ndarray K) (n : nat) :
  shape P = [n; 4] -> length (data P) = n * 4 ->
  (exists outs,
      length outs = n /\
      (forall i, i < n ->
                 transform A2B (np_row i P) = Ok (nth i outs (np_zeros [0]))) /\
      transform A2B P = Ok (np_stack 4 outs) /\
      shape (np_stack 4 outs) = shape P) /\
  (forall p : ndarray K,
      shape p = [4] ->
      exists pB, transform A2B p = Ok pB /\ shape pB = shape p).
Proof.
  intros Hs Hl. split.
  - set (M := rows 4 4 (data A2B)).
    exists (map (fun r => np_array1 (matvec M r)) (rows n 4 (data P))).
    assert (Hlen : length (map (fun r => np_array1 (matvec M r))
                               (rows n 4 (data P))) = n)
      by now rewrite length_map, length_rows.
    split; [exact Hlen|]. split; [|split].
    + intros i Hi. unfold np_row. rewrite Hs.
      pose proof (rows_row_length n 4 (data P) Hl) as Hrows.
      rewrite Forall_forall in Hrows.
      assert (Hin : In (nth i (rows n 4 (data P)) []) (rows n 4 (data P)))
        by (apply nth_In; now rewrite length_rows).
      rewrite transform_row by now apply Hrows.
      f_equal. fold M.
      rewrite (nth_indep _ (np_zeros [0]) (np_array1 (matvec M []))) by lia.
      now rewrite (map_nth (fun r => np_array1 (matvec M r))).
    + unfold transform, np_stack, of_rows. rewrite Hs. simpl Nat.eqb.
      cbv iota. rewrite length_map, length_rows, map_map. reflexivity.
    + unfold np_stack. simpl shape. now rewrite length_map, length_rows, Hs.
  - intros p Hp. unfold transform. rewrite Hp. simpl Nat.eqb. cbv iota.
    eexists. split; [reflexivity|]. reflexivity.
Qed.

End Shapes.

(** ** The theorems at concrete arrays *)

Module Examples.

Import ZModel.

#[local] Open Scope Z_scope.

Lemma Z_ring_laws : ring_laws Zscalar.
Proof. exact Zth. Defined.

Lemma Z_eqb_laws : eqb_laws Zscalar.
Proof. intros x y. apply Z.eqb_eq. Defined.

(** Under a positive tolerance the integer comparison accepts every
    array against itself, and under a tolerance of at most 2 it tells
    -1 from 1. *)
Lemma z_almost_equal_refl (t : Z) (a : zarray) :
  0 < t -> z_almost_equal t a a = true.
Proof.
  intros Ht. unfold z_almost_equal. rewrite shape_eqb_refl. simpl.
  induction (data a) as [|x d IH]; simpl; [reflexivity|].
  rewrite IH, Z.sub_diag, andb_true_r. now apply Z.ltb_lt.
Qed.

Lemma z_almost_equal_reflection (t : Z) :
  t <= 2 -> z_almost_equal t (np_scalar (-1)) (np_scalar 1) = false.
Proof.
  intros Ht. unfold z_almost_equal. simpl. rewrite andb_true_r.
  apply Z.ltb_ge. exact Ht.
Qed.

Definition zvec (v : list Z) : zarray := @np_array1 Zscalar v.
Definition tol (t : Z) : @kwargs Zscalar Zexternals := t.
Definition zmat (s : list nat) (d : list Z) : zarray := @mk_ndarray Zscalar s d.

(** Quarter turns about the z and x axes, and two translations. *)
Definition Rz : zarray := zmat [3; 3]%nat [0; -1; 0; 1; 0; 0; 0; 0; 1].
Definition Rx : zarray := zmat [3; 3]%nat [1; 0; 0; 0; 0; -1; 0; 1; 0].
Definition p1 : zarray := zvec [5; 6; 7].
Definition p2 : zarray := zvec [-2; 0; 3].

(** The reflection in the plane z = 0. *)
Definition mirror : zarray := zmat [3; 3]%nat [1; 0; 0; 0; 1; 0; 0; 0; -1].

Lemma Rz_rotation : is_rotation_matrix Rz.
Proof. repeat split. Defined.

Lemma Rx_rotation : is_rotation_matrix Rx.
Proof. repeat split. Defined.

Lemma invert_transform_true_inverse_witness :
  is_rotation_matrix Rz /\
  invert_transform (transform_from Rz p1)
  = Ok (zmat [4; 4]%nat
          [0; 1; 0; -6; -1; 0; 0; 5; 0; 0; 1; -7; 0; 0; 0; 1]) /\
  is_inverse (transform_from Rz p1)
    (zmat [4; 4]%nat [0; 1; 0; -6; -1; 0; 0; 5; 0; 0; 1; -7; 0; 0; 0; 1]).
Proof.
  split; [exact Rz_rotation|].
  destruct (@invert_transform_true_inverse Zscalar Z_ring_laws Rz p1
              Rz_rotation eq_refl eq_refl) as (Rtp & Hdot & Hinv & Hboth & _).
  apply Ok_inj in Hdot. subst Rtp. split; [exact Hinv|exact Hboth].
Defined.

Lemma concat_composes_and_inverts_witness :
  transform (concat (transform_from Rz p1) (transform_from Rx p2))
            (zvec [3; -2; 9; 1])
  = rbind (transform (transform_from Rz p1) (zvec [3; -2; 9; 1]))
          (transform (transform_from Rx p2)) /\
  invert_transform (concat (transform_from Rz p1) (transform_from Rx p2))
  = rbind (invert_transform (transform_from Rx p2)) (fun C2B =>
    rbind (invert_transform (transform_from Rz p1)) (fun B2A =>
    Ok (concat C2B B2A))).
Proof.
  assert (HA : is_transform (transform_from Rz p1)).
  { exists Rz, p1. repeat split. }
  assert (HB : is_transform (transform_from Rx p2)).
  { exists Rx, p2. repeat split. }
  destruct (@concat_composes_and_inverts Zscalar Z_ring_laws
              (transform_from Rz p1) (transform_from Rx p2)
              (zvec [3; -2; 9; 1]) HA HB eq_refl eq_refl)
    as (Hcomp & p_C & B2A & C2B & _ & HiA & HiB & Hinv & _).
  split; [exact Hcomp|]. rewrite Hinv, HiA, HiB. reflexivity.
Defined.

Lemma transform_batch_rowwise_witness :
  exists outs,
    transform (transform_from Rz p1)
              (zmat [2; 4]%nat [1; 2; 3; 1; 2; 3; 4; 1])
    = Ok (np_stack 4 outs) /\
    transform (transform_from Rz p1) (zvec [1; 2; 3; 1])
    = Ok (nth 0 outs (np_zeros [0%nat])) /\
    transform (transform_from Rz p1) (zvec [2; 3; 4; 1])
    = Ok (nth 1 outs (np_zeros [0%nat])).
Proof.
  destruct (@transform_batch_rowwise Zscalar (transform_from Rz p1)
              (zmat [2; 4]%nat [1; 2; 3; 1; 2; 3; 4; 1]) 2
              eq_refl eq_refl) as ((outs & _ & Hrow & Hall & _) & _).
  exists outs. split; [exact Hall|]. split.
  - exact (Hrow 0%nat (le_S 1 1 (le_n 1))).
  - exact (Hrow 1%nat (le_n 2)).
Defined.

Lemma assert_quaternion_equal_raises_iff_witness :
  almost_equal (tol 1) (zvec [0; 1; 0; 0]) (zvec [0; 1; 0; 0])
  = true /\
  assert_quaternion_equal (tol 1) (zvec [0; 1; 0; 0])
    (np_neg (zvec [0; 1; 0; 0])) []
  = (Ok tt, []).
Proof.
  split; [reflexivity|].
  apply (proj2 (@assert_quaternion_equal_raises_iff Zscalar Zexternals)
               Z.opp_involutive (tol 1) (zvec [0; 1; 0; 0]) []).
  reflexivity.
Defined.

Lemma assert_quaternion_equal_no_validation_witness :
  assert_quaternion_equal (tol 1) (zvec [0; 0; 0; 0])
    (zvec [0; 0; 0; 0]) [] = (Ok tt, []) /\
  assert_quaternion_equal (tol 1) (zvec [3; 0; -4; 0])
    (zvec [3; 0; -4; 0]) [] = (Ok tt, []).
Proof.
  split;
    apply (proj1 (@assert_quaternion_equal_no_validation Zscalar Zexternals));
    reflexivity.
Defined.

Lemma assert_axis_angle_equal_policy_witness :
  assert_axis_angle_equal (tol 1) (zvec [1; 0; 0; 1])
    (zvec [-1; 0; 0; 3]) [] = (Ok tt, []) /\
  assert_axis_angle_equal (tol 1) (zvec [1; 0; 0; 2])
    (zvec [-1; 0; 0; 2]) [] = (Ok tt, []) /\
  assert_axis_angle_equal (tol 1) (zvec [0; 1; 0; 1])
    (zvec [0; 1; 0; 1]) [] = (Ok tt, []).
Proof.
  destruct (@assert_axis_angle_equal_policy Zscalar Zexternals)
    as (_ & _ & Hself & _ & Hgen & Hpi).
  split; [|split].
  - apply (Hgen (tol 1) 1 0 0 1 3 (zvec [1; 0; 0; 1]) []);
      reflexivity.
  - apply (Hpi (tol 1) 1 0 0 (zvec [-1; 0; 0; 2]) []); reflexivity.
  - apply (Hself (tol 1) (zvec [0; 1; 0; 1])
                 (zvec [0; 1; 0; 1]) [] Z.eqb_refl); reflexivity.
Defined.

Lemma assert_compact_axis_angle_equal_policy_witness :
  assert_compact_axis_angle_equal (tol 1) (zvec [2; 0; 0])
    (zvec [-2; 0; 0]) []
  = compare_images norm_compact_axis_angle (tol 1)
      (zvec [-2; 0; 0]) (zvec [-2; 0; 0]) [] /\
  assert_compact_axis_angle_equal (tol 1) (zvec [1; 0; 0])
    (zvec [-1; 0; 0]) []
  = compare_images norm_compact_axis_angle (tol 1)
      (zvec [1; 0; 0]) (zvec [-1; 0; 0]) [].
Proof.
  split.
  - apply (proj1 (@assert_compact_axis_angle_equal_policy Zscalar Zexternals
                    (tol 1) (zvec [2; 0; 0]) (zvec [-2; 0; 0])
                    [] eq_refl eq_refl eq_refl)).
    repeat split.
  - apply (proj2 (@assert_compact_axis_angle_equal_policy Zscalar Zexternals
                    (tol 1) (zvec [1; 0; 0]) (zvec [-1; 0; 0])
                    [] eq_refl eq_refl eq_refl)).
    left. reflexivity.
Defined.

Lemma assert_rotation_matrix_raises_iff_witness :
  np_dot mirror (np_T mirror) = Ok (np_eye 3) /\
  np_linalg_det mirror = Ok (-1) /\
  assert_rotation_matrix (tol 1) mirror [] = (Raise AssertionError, []) /\
  fst (assert_rotation_matrix (tol 1) Rz []) = Ok tt.
Proof.
  destruct (@assert_rotation_matrix_raises_iff Zscalar Zexternals
              (tol 1) mirror []) as (_ & _ & Hmirror).
  destruct (@assert_rotation_matrix_raises_iff Zscalar Zexternals
              (tol 1) Rz []) as (Hok & _ & _).
  split; [reflexivity|]. split; [reflexivity|]. split.
  - apply Hmirror; reflexivity.
  - apply Hok; [reflexivity|]. split; reflexivity.
Defined.

Lemma assert_euler_equal_deprecated_witness :
  fst (assert_euler_xyz_equal (tol 1) (zvec [1; 0; 0]) (zvec [5; 0; 0]) [])
  = Ok tt /\
  fst (assert_euler_zyx_equal (tol 1) (zvec [1; 0; 1]) (zvec [5; 0; 0]) [])
  = Raise AssertionError /\
  exists rest,
    snd (assert_euler_xyz_equal (tol 1) (zvec [1; 0; 0]) (zvec [5; 0; 0]) [])
    = mk_warning "assert_euler_xyz_equal will be removed in version 2.0.0"
                 DeprecationWarning 2 :: rest.
Proof.
  destruct (@assert_euler_equal_deprecated Zscalar Zexternals (tol 1)
              (zvec [1; 0; 0]) (zvec [5; 0; 0]) [])
    as ((Hw & _) & Hxyz & _).
  destruct (@assert_euler_equal_deprecated Zscalar Zexternals (tol 1)
              (zvec [1; 0; 1]) (zvec [5; 0; 0]) [])
    as (_ & _ & Hzyx).
  split; [|split].
  - rewrite (Hxyz _ _ eq_refl eq_refl). reflexivity.
  - rewrite (Hzyx _ _ eq_refl eq_refl). reflexivity.
  - exact Hw.
Defined.

End Examples.

(** ** Further properties of the assertion helpers *)

Section MoreTestingFacts.

Context {K : Scalar} {E : Externals K}.

Lemma assert_compact_axis_angle_equal_run (kw : kwargs) (a1 a2 : ndarray K) w :
  shape a1 = shape a2 ->
  assert_compact_axis_angle_equal kw a1 a2 w
  = compare_images norm_compact_axis_angle kw
      (if eqb (absv (np_linalg_norm a1)) np_pi
          && eqb (absv (np_linalg_norm a2)) np_pi
          && sign_patterns_disagree a1 a2
       then np_neg a1 else a1) a2 w.
Proof.
  intros Hs. unfold assert_compact_axis_angle_equal, half_turn_flip.
  rewrite (signs_differ_same_shape a1 a2 Hs).
  destruct (eqb (absv (np_linalg_norm a1)) np_pi); [|reflexivity].
  destruct (eqb (absv (np_linalg_norm a2)) np_pi); reflexivity.
Qed.

(** X1: negating either argument of [assert_quaternion_equal] does not
    change its run: the second argument when negation of entries is an
    involution, the first when moreover the comparison gives [-a], [-b]
    the verdict of [a], [b]. *)
Theorem assert_quaternion_equal_sign_insensitive :
  (forall x : T, opp (opp x) = x) ->
  forall (kw : kwargs) (q1 q2 : ndarray K) w,
    assert_quaternion_equal kw q1 (np_neg q2) w
    = assert_quaternion_equal kw q1 q2 w /\
    ((forall a b, almost_equal kw (np_neg a) (np_neg b) = almost_equal kw a b) ->
     assert_quaternion_equal kw (np_neg q1) q2 w
     = assert_quaternion_equal kw q1 q2 w).
Proof.
  intros Hopp kw q1 q2 w. rewrite !assert_quaternion_equal_run.
  rewrite (np_neg_involutive q2 Hopp). split.
  - now rewrite orb_comm.
  - intros Hneg. rewrite (Hneg q1 q2).
    rewrite <- (np_neg_involutive q2 Hopp) at 1.
    rewrite (Hneg q1 (np_neg q2)). now rewrite orb_comm.
Qed.

(** X2: [assert_quaternion_equal] treats its two arguments alike when
    the comparison is symmetric and gives [-a], [-b] the verdict of [a],
    [b]. *)
Theorem assert_quaternion_equal_symmetric :
  (forall x : T, opp (opp x) = x) ->
  forall kw : kwargs,
    (forall a b, almost_equal kw a b = almost_equal kw b a) ->
    (forall a b, almost_equal kw (np_neg a) (np_neg b) = almost_equal kw a b) ->
    forall (q1 q2 : ndarray K) w,
      assert_quaternion_equal kw q1 q2 w = assert_quaternion_equal kw q2 q1 w.
Proof.
  intros Hopp kw Hsym Hneg q1 q2 w. rewrite !assert_quaternion_equal_run.
  rewrite (Hsym q2 q1), (Hsym q2 (np_neg q1)).
  rewrite <- (Hneg (np_neg q1) q2), (np_neg_involutive q1 Hopp).
  reflexivity.
Qed.

(** X3: [assert_rotation_matrix] never returns on a two-dimensional
    array that is not square: the orthogonality check runs first and its
    failure raises [AssertionError]; when it passes, the determinant
    raises [LinAlgError]. *)
Theorem assert_rotation_matrix_nonsquare (kw : kwargs) (R : ndarray K) w :
  forall n k, shape R = [n; k] -> n <> k ->
  assert_rotation_matrix kw R w
  = (if orthogonal_within kw R then Raise LinAlgError
     else Raise AssertionError, w).
Proof.
  intros n k Hs Hnk. rewrite assert_rotation_matrix_run.
  unfold orthogonal_within.
  assert (Hdet : np_linalg_det R = Raise LinAlgError).
  { unfold np_linalg_det. rewrite Hs.
    destruct (Nat.eqb n k) eqn:En; [|reflexivity].
    apply Nat.eqb_eq in En. contradiction. }
  assert (Hdot : exists RRt, np_dot R (np_T R) = Ok RRt).
  { unfold np_dot, np_T. rewrite Hs. cbn [shape of_rows].
    rewrite Nat.eqb_refl. eauto. }
  destruct Hdot as [RRt ->]. rewrite Hdet.
  destruct (almost_equal kw RRt (np_eye 3)); reflexivity.
Qed.

(** X4: [assert_compact_axis_angle_equal(a, a)] returns for every array
    the normaliser accepts, whatever its norm. *)
Theorem assert_compact_axis_angle_equal_self
    (kw : kwargs) (a n : ndarray K) w :
  (forall x : T, eqb x x = true) ->
  norm_compact_axis_angle a = Ok n -> almost_equal kw n n = true ->
  assert_compact_axis_angle_equal kw a a w = (Ok tt, w).
Proof.
  intros Hrefl Hn Hnn.
  rewrite assert_compact_axis_angle_equal_run by reflexivity.
  rewrite (sign_patterns_agree_self a Hrefl), andb_false_r.
  now apply compare_images_same with (n := n).
Qed.

(** X5: at a half turn, where [a] and [-a] both have norm [==] pi,
    [assert_compact_axis_angle_equal(a, -a)] returns: the guard turns
    [a] into [-a] before normalisation. *)
Theorem assert_compact_axis_angle_equal_half_turn
    (kw : kwargs) (a n : ndarray K) w :
  eqb_laws K ->
  (forall x : T, sgn x = sgn (opp x) -> opp x = x) ->
  eqb (absv (np_linalg_norm a)) np_pi = true ->
  eqb (absv (np_linalg_norm (np_neg a))) np_pi = true ->
  norm_compact_axis_angle (np_neg a) = Ok n -> almost_equal kw n n = true ->
  assert_compact_axis_angle_equal kw a (np_neg a) w = (Ok tt, w).
Proof.
  intros Heqb Hsgn H1 H2 Hn Hnn.
  rewrite assert_compact_axis_angle_equal_run by reflexivity.
  rewrite H1, H2. simpl.
  destruct (sign_patterns_disagree a (np_neg a)) eqn:Hd.
  - now apply compare_images_same with (n := n).
  - rewrite (sign_patterns_agree_neg a Heqb Hsgn Hd) in Hn |- *.
    now apply compare_images_same with (n := n).
Qed.

End MoreTestingFacts.

(** ** Further properties of rotations and transforms *)

Section MoreTransformFacts.

Context {K : Scalar}.
Hypothesis Rth : ring_theory zero one add mul sub opp (@eq T).

Add Ring Kring' : Rth.

Ltac by_entries := cbn; repeat (f_equal; try ring).

Lemma det_transpose3 (M : matrix K) :
  shaped 3 3 M = true -> det 3 (transpose 3 M) = det 3 M.
Proof. unfold shaped. intros H. explode H. cbn. ring. Qed.

Lemma det_matmul3 (A B : matrix K) :
  shaped 3 3 A = true -> shaped 3 3 B = true ->
  det 3 (matmul 3 A B) = mul (det 3 A) (det 3 B).
Proof.
  unfold shaped. intros HA HB. explode HA. explode HB. cbn. ring.
Qed.

Lemma transpose_involutive3 (M : matrix K) :
  shaped 3 3 M = true -> transpose 3 (transpose 3 M) = M.
Proof. unfold shaped. intros H. explode H. reflexivity. Qed.

Lemma concat_rows3 (d : list T) : length d = 9 -> List.concat (rows 3 3 d) = d.
Proof. intros H. explode H. reflexivity. Qed.

(** A matrix of rows with the two properties is a rotation matrix as an
    array. *)
Lemma is_rotation_of_rows (M : matrix K) :
  shaped 3 3 M = true ->
  matmul 3 M (transpose 3 M) = identity 3 ->
  det 3 M = one ->
  is_rotation_matrix (of_rows 3 3 M).
Proof.
  intros HM HO HD. unfold is_rotation_matrix.
  split; [reflexivity|]. split; [now apply length_concat3|]. split.
  - unfold np_dot, np_T. cbn [shape of_rows]. simpl Nat.eqb. cbv iota.
    rewrite !data_of_rows, !rows_concat3, HO;
      trivial; now apply shaped_transpose3.
  - unfold np_linalg_det. cbn [shape of_rows]. simpl Nat.eqb. cbv iota.
    now rewrite data_of_rows, rows_concat3, HD.
Qed.

(** All that [is_rotation_matrix] says of the rows. *)
Lemma rotation_rows_det (R : ndarray K) :
  is_rotation_matrix R ->
  R = of_rows 3 3 (rows 3 3 (data R)) /\
  shaped 3 3 (rows 3 3 (data R)) = true /\
  matmul 3 (rows 3 3 (data R)) (transpose 3 (rows 3 3 (data R))) = identity 3 /\
  matmul 3 (transpose 3 (rows 3 3 (data R))) (rows 3 3 (data R)) = identity 3 /\
  det 3 (rows 3 3 (data R)) = one.
Proof.
  intros HR. destruct (rotation_rows Rth R HR) as (HM & HO & HO').
  destruct HR as (Hs & Hl & _ & Hd).
  split; [|repeat split; trivial].
  - destruct R as [s d]. cbn [shape data] in *. subst s. unfold of_rows.
    cbn [data]. now rewrite concat_rows3.
  - unfold np_linalg_det in Hd. rewrite Hs in Hd. simpl Nat.eqb in Hd.
    cbv iota in Hd. now apply Ok_inj in Hd.
Qed.

Lemma rotation_transpose_rows (M : matrix K) :
  shaped 3 3 M = true ->
  matmul 3 (transpose 3 M) M = identity 3 -> det 3 M = one ->
  is_rotation_matrix (of_rows 3 3 (transpose 3 M)).
Proof.
  intros HM HO' HD. apply is_rotation_of_rows.
  - now apply shaped_transpose3.
  - now rewrite transpose_involutive3.
  - now rewrite det_transpose3.
Qed.

Lemma orthogonal_product_right (M1 M2 : matrix K) :
  shaped 3 3 M1 = true -> shaped 3 3 M2 = true ->
  matmul 3 M1 (transpose 3 M1) = identity 3 ->
  matmul 3 M2 (transpose 3 M2) = identity 3 ->
  matmul 3 (matmul 3 M1 M2) (transpose 3 (matmul 3 M1 M2)) = identity 3.
Proof.
  intros H1 H2 O1 O2.
  pose proof (shaped_transpose3 M1 H1) as H1t.
  pose proof (shaped_transpose3 M2 H2) as H2t.
  rewrite (transpose_matmul3 Rth) by trivial.
  rewrite (matmul_assoc3 Rth) by (trivial; now apply shaped_matmul3).
  rewrite <- (matmul_assoc3 Rth M2) by trivial.
  rewrite O2, (matmul_identity_l3 Rth) by trivial. exact O1.
Qed.

Lemma rotation_product_rows (M1 M2 : matrix K) :
  shaped 3 3 M1 = true -> shaped 3 3 M2 = true ->
  matmul 3 M1 (transpose 3 M1) = identity 3 ->
  matmul 3 M2 (transpose 3 M2) = identity 3 ->
  det 3 M1 = one -> det 3 M2 = one ->
  is_rotation_matrix (of_rows 3 3 (matmul 3 M1 M2)).
Proof.
  intros H1 H2 O1 O2 D1 D2. apply is_rotation_of_rows.
  - now apply shaped_matmul3.
  - now apply orthogonal_product_right.
  - rewrite det_matmul3, D1, D2 by trivial. ring.
Qed.

(** X8: the transpose of an exact rotation matrix and the product of
    two exact rotation matrices are exact rotation matrices, so
    [assert_rotation_matrix] returns on them whenever the comparison
    accepts the identity and 1 against themselves. *)
Theorem assert_rotation_matrix_closed {E : Externals K}
    (kw : kwargs) (R1 R2 : ndarray K) w :
  almost_equal kw (np_eye 3) (np_eye 3) = true ->
  almost_equal kw (np_scalar one) (np_scalar one) = true ->
  is_rotation_matrix R1 -> is_rotation_matrix R2 ->
  (is_rotation_matrix (np_T R1) /\
   assert_rotation_matrix kw (np_T R1) w = (Ok tt, w)) /\
  exists R12,
    np_dot R1 R2 = Ok R12 /\ is_rotation_matrix R12 /\
    assert_rotation_matrix kw R12 w = (Ok tt, w).
Proof.
  intros Hi H1 HR1 HR2.
  assert (Hacc : forall R, is_rotation_matrix R ->
                           assert_rotation_matrix kw R w = (Ok tt, w)).
  { intros R (_ & _ & Ho & Hd). rewrite assert_rotation_matrix_run.
    now rewrite Ho, Hi, Hd, H1. }
  destruct (rotation_rows_det R1 HR1) as (E1 & S1 & O1 & O1' & D1).
  destruct (rotation_rows_det R2 HR2) as (E2 & S2 & O2 & O2' & D2).
  assert (HT : is_rotation_matrix (np_T R1)).
  { unfold np_T. destruct HR1 as (-> & _). now apply rotation_transpose_rows. }
  split; [split; [exact HT|now apply Hacc]|].
  exists (of_rows 3 3 (matmul 3 (rows 3 3 (data R1)) (rows 3 3 (data R2)))).
  assert (HP : is_rotation_matrix
                 (of_rows 3 3 (matmul 3 (rows 3 3 (data R1))
                                        (rows 3 3 (data R2)))))
    by now apply rotation_product_rows.
  split; [|split; [exact HP|now apply Hacc]].
  unfold np_dot. destruct HR1 as (-> & _). destruct HR2 as (-> & _).
  reflexivity.
Qed.

(** What [is_transform] says of the rows, determinant included. *)
Lemma is_transform_rows_det (A : ndarray K) :
  is_transform A ->
  exists M v,
    A = of_rows 4 4 (homogeneous M v) /\
    shaped 3 3 M = true /\ length v = 3 /\
    matmul 3 M (transpose 3 M) = identity 3 /\
    matmul 3 (transpose 3 M) M = identity 3 /\
    det 3 M = one.
Proof.
  intros (R & p & HR & _ & Hp & ->).
  destruct (rotation_rows_det R HR) as (_ & HM & HO & HO' & HD).
  exists (rows 3 3 (data R)), (data p). repeat split; trivial.
Qed.

Lemma is_transform_of_rows (M : matrix K) (v : vector K) :
  shaped 3 3 M = true -> length v = 3 ->
  matmul 3 M (transpose 3 M) = identity 3 -> det 3 M = one ->
  is_transform (of_rows 4 4 (homogeneous M v)).
Proof.
  intros HM Hv HO HD.
  exists (of_rows 3 3 M), (np_array1 v).
  split; [now apply is_rotation_of_rows|].
  split; [simpl; now rewrite Hv|]. split; [exact Hv|].
  unfold transform_from. now rewrite data_of_rows, rows_concat3.
Qed.

Lemma length_vadd3 (u v : vector K) :
  length u = 3 -> length v = 3 -> length (vadd u v) = 3.
Proof. intros Hu Hv. explode Hu. explode Hv. reflexivity. Qed.

(** X9: homogeneous transforms are closed under [concat] and under
    [invert_transform]: the composition of two transforms and the
    inverse of a transform again have a rotation block (orthogonal,
    determinant 1), a translation column and the bottom row 0 0 0 1. *)
Theorem transforms_closed (A2B B2C : ndarray K) :
  is_transform A2B -> is_transform B2C ->
  is_transform (concat A2B B2C) /\
  exists B2A, invert_transform A2B = Ok B2A /\ is_transform B2A.
Proof.
  intros HA HB.
  destruct (is_transform_rows_det A2B HA)
    as (M1 & v1 & -> & S1 & L1 & O1 & O1' & D1).
  destruct (is_transform_rows_det B2C HB)
    as (M2 & v2 & -> & S2 & L2 & O2 & O2' & D2).
  split.
  - rewrite concat_of_rows by now apply shaped_homogeneous.
    rewrite (homogeneous_matmul Rth) by trivial.
    apply is_transform_of_rows.
    + now apply shaped_matmul3.
    + apply length_vadd3; trivial. rewrite length_matvec.
      now apply shaped_length in S2.
    + now apply orthogonal_product_right.
    + rewrite det_matmul3, D1, D2 by trivial. ring.
  - eexists. split; [now apply invert_homogeneous|].
    apply is_transform_of_rows.
    + now apply shaped_transpose3.
    + reflexivity.
    + now rewrite transpose_involutive3.
    + now rewrite det_transpose3.
Qed.

Lemma double_inverse_translation (M : matrix K) (v : vector K) :
  shaped 3 3 M = true -> length v = 3 ->
  map opp (matvec M (map opp (matvec (transpose 3 M) v)))
  = matvec (matmul 3 M (transpose 3 M)) v.
Proof.
  unfold shaped. intros HM Hv. explode HM. explode Hv. by_entries.
Qed.

(** X10: [invert_transform] is an involution on homogeneous transforms:
    inverting the inverse of a transform returns the transform. *)
Theorem invert_transform_involutive (A2B : ndarray K) :
  is_transform A2B ->
  rbind (invert_transform A2B) invert_transform = Ok A2B.
Proof.
  intros HA.
  destruct (is_transform_rows_det A2B HA)
    as (M & v & -> & HM & Hv & HO & _ & _).
  pose proof (shaped_transpose3 M HM) as HMt.
  rewrite invert_homogeneous by trivial. unfold rbind.
  rewrite invert_homogeneous by (trivial; reflexivity).
  rewrite transpose_involutive3 by trivial.
  rewrite double_inverse_translation by trivial.
  now rewrite HO, (matvec_identity3 Rth).
Qed.

Lemma of_rows_rows4 (A : ndarray K) :
  shape A = [4; 4] -> length (data A) = 16 ->
  A = of_rows 4 4 (rows 4 4 (data A)).
Proof.
  destruct A as [s d]. cbn [shape data]. intros -> Hd. unfold of_rows.
  cbn [data]. now rewrite concat_rows4.
Qed.

(** X11: on well-formed 4x4 arrays [concat] is associative and the
    identity is neutral on both sides. *)
Theorem concat_monoid (A B C : ndarray K) :
  shape A = [4; 4] -> length (data A) = 16 ->
  shape B = [4; 4] -> length (data B) = 16 ->
  shape C = [4; 4] -> length (data C) = 16 ->
  concat (concat A B) C = concat A (concat B C) /\
  concat A (np_eye 4) = A /\ concat (np_eye 4) A = A.
Proof.
  intros HsA HlA HsB HlB HsC HlC.
  pose proof (shaped_rows4 _ HlA) as SA.
  pose proof (shaped_rows4 _ HlB) as SB.
  pose proof (shaped_rows4 _ HlC) as SC.
  rewrite (of_rows_rows4 A HsA HlA), (of_rows_rows4 B HsB HlB),
    (of_rows_rows4 C HsC HlC).
  change (np_eye 4) with (of_rows 4 4 (identity 4)).
  rewrite !concat_of_rows;
    trivial; try reflexivity; try now apply shaped_matmul4.
  split; [|split].
  - now rewrite (matmul_assoc4 Rth).
  - now rewrite (matmul_identity_l4 Rth).
  - now rewrite (matmul_identity_r4 Rth).
Qed.

(** X12: a transform maps the homogeneous point of a vector [v] to the
    homogeneous point of [R v + p]: the translation is applied and the
    last coordinate stays 1. *)
Theorem transform_vector_to_point (R p v : ndarray K) :
  length (data R) = 9 -> length (data p) = 3 -> length (data v) = 3 ->
  transform (transform_from R p) (vector_to_point v)
  = Ok (vector_to_point
          (np_array1 (vadd (matvec (rows 3 3 (data R)) (data v)) (data p)))).
Proof.
  intros HR Hp Hv. destruct R as [sR dR], p as [sp dp], v as [sv dv].
  simpl in HR, Hp, Hv. explode HR. explode Hp. explode Hv.
  unfold transform, vector_to_point, transform_from. cbn.
  repeat (f_equal; try ring).
Qed.

(** Rows of one length are recovered from their concatenation. *)
Lemma rows_concat_all (c : nat) (rs : matrix K) :
  Forall (fun r => length r = c) rs ->
  rows (length rs) c (List.concat rs) = rs.
Proof.
  induction 1 as [|r rs Hr _ IH]; [reflexivity|].
  subst c. cbn [length List.concat rows].
  rewrite firstn_app, Nat.sub_diag, firstn_O, app_nil_r, firstn_all.
  rewrite skipn_app, Nat.sub_diag, skipn_all. simpl. now rewrite IH.
Qed.

(** X13: transforming a batch by a composition is transforming it by
    the first transform and then by the second. *)
Theorem transform_batch_concat (A2B B2C P : ndarray K) (n : nat) :
  shape A2B = [4; 4] -> length (data A2B) = 16 ->
  shape B2C = [4; 4] -> length (data B2C) = 16 ->
  shape P = [n; 4] -> length (data P) = n * 4 ->
  transform (concat A2B B2C) P = rbind (transform A2B P) (transform B2C).
Proof.
  intros HsA HlA HsB HlB HsP HlP.
  pose proof (shaped_rows4 _ HlA) as SA.
  pose proof (shaped_rows4 _ HlB) as SB.
  pose proof (rows_row_length n 4 (data P) HlP) as Hrows.
  pose proof (length_rows n 4 (data P)) as Hlen.
  assert (Hback : rows n 4 (List.concat (map (matvec (rows 4 4 (data A2B)))
                                             (rows n 4 (data P))))
                  = map (matvec (rows 4 4 (data A2B))) (rows n 4 (data P))).
  { rewrite <- Hlen at 1.
    rewrite <- (length_map (matvec (rows 4 4 (data A2B)))).
    apply rows_concat_all. apply Forall_forall. intros r Hin.
    apply in_map_iff in Hin. destruct Hin as (r' & <- & _).
    rewrite length_matvec. now apply shaped_length in SA. }
  unfold transform at 1 2. rewrite HsP. simpl Nat.eqb. cbv iota.
  unfold rbind, transform. cbn [shape of_rows]. simpl Nat.eqb. cbv iota.
  unfold concat. rewrite !data_of_rows.
  rewrite rows_concat4 by now apply shaped_matmul4.
  rewrite Hback, map_map.
  rewrite (map_ext_in
             (matvec (matmul 4 (rows 4 4 (data B2C)) (rows 4 4 (data A2B))))
             (fun r => matvec (rows 4 4 (data B2C))
                         (matvec (rows 4 4 (data A2B)) r))); [reflexivity|].
  intros r Hin. rewrite Forall_forall in Hrows.
  now rewrite (matvec_matmul4 Rth) by (trivial; now apply Hrows).
Qed.

End MoreTransformFacts.

(** ** The further properties at concrete arrays *)

Module MoreExamples.

Import ZModel.
Import Examples.

#[local] Open Scope Z_scope.

Lemma shape_eqb_sym (s1 s2 : list nat) : shape_eqb s1 s2 = shape_eqb s2 s1.
Proof.
  unfold shape_eqb.
  destruct (list_eq_dec Nat.eq_dec s1 s2), (list_eq_dec Nat.eq_dec s2 s1);
    congruence.
Qed.

(** The integer comparison is symmetric and blind to a joint change of
    sign. *)
Lemma z_almost_equal_sym (t : Z) (a b : zarray) :
  z_almost_equal t a b = z_almost_equal t b a.
Proof.
  unfold z_almost_equal. rewrite shape_eqb_sym. f_equal.
  generalize (data b) as db. induction (data a) as [|x da IH]; intros [|y db];
    simpl; trivial.
  rewrite IH. f_equal. f_equal. lia.
Qed.

Lemma z_almost_equal_neg (t : Z) (a b : zarray) :
  z_almost_equal t (np_neg a) (np_neg b) = z_almost_equal t a b.
Proof.
  unfold z_almost_equal. simpl. f_equal.
  generalize (data b) as db. induction (data a) as [|x da IH]; intros [|y db];
    simpl; trivial.
  rewrite IH. f_equal. f_equal. lia.
Qed.

Lemma Z_sgn_opp (x : Z) : Z.sgn x = Z.sgn (- x) -> - x = x.
Proof. destruct x; simpl; intros H; trivial; discriminate H. Qed.

Lemma assert_quaternion_equal_sign_insensitive_witness :
  assert_quaternion_equal (tol 1) (zvec [0; 1; 0; 0])
    (np_neg (zvec [0; -1; 0; 0])) []
  = assert_quaternion_equal (tol 1) (zvec [0; 1; 0; 0])
      (zvec [0; -1; 0; 0]) [] /\
  assert_quaternion_equal (tol 1) (np_neg (zvec [0; 1; 0; 0]))
    (zvec [0; -1; 0; 0]) []
  = assert_quaternion_equal (tol 1) (zvec [0; 1; 0; 0])
      (zvec [0; -1; 0; 0]) [].
Proof.
  destruct (@assert_quaternion_equal_sign_insensitive Zscalar Zexternals
              Z.opp_involutive (tol 1) (zvec [0; 1; 0; 0])
              (zvec [0; -1; 0; 0]) []) as (H2 & H1).
  split; [exact H2|]. apply H1. exact (z_almost_equal_neg 1).
Defined.

Lemma assert_quaternion_equal_symmetric_witness :
  assert_quaternion_equal (tol 1) (zvec [1; 0; 0; 0]) (zvec [0; 1; 0; 0]) []
  = assert_quaternion_equal (tol 1) (zvec [0; 1; 0; 0]) (zvec [1; 0; 0; 0]) [].
Proof.
  exact (@assert_quaternion_equal_symmetric Zscalar Zexternals
           Z.opp_involutive (tol 1) (z_almost_equal_sym 1)
           (z_almost_equal_neg 1) (zvec [1; 0; 0; 0]) (zvec [0; 1; 0; 0]) []).
Defined.

(** Three orthonormal rows of four entries, and a 2x3 array. *)
Definition wide : zarray :=
  zmat [3; 4]%nat [1; 0; 0; 0; 0; 1; 0; 0; 0; 0; 1; 0].
Definition flat : zarray := zmat [2; 3]%nat [1; 0; 0; 0; 1; 0].

Lemma assert_rotation_matrix_nonsquare_witness :
  assert_rotation_matrix (tol 1) wide [] = (Raise LinAlgError, []) /\
  assert_rotation_matrix (tol 1) flat [] = (Raise AssertionError, []).
Proof.
  split.
  - rewrite (@assert_rotation_matrix_nonsquare Zscalar Zexternals (tol 1)
               wide [] 3%nat 4%nat eq_refl).
    + reflexivity.
    + discriminate.
  - rewrite (@assert_rotation_matrix_nonsquare Zscalar Zexternals (tol 1)
               flat [] 2%nat 3%nat eq_refl).
    + reflexivity.
    + discriminate.
Defined.

Lemma assert_compact_axis_angle_equal_self_witness :
  assert_compact_axis_angle_equal (tol 1) (zvec [0; 2; 0]) (zvec [0; 2; 0]) []
  = (Ok tt, []).
Proof.
  exact (@assert_compact_axis_angle_equal_self Zscalar Zexternals (tol 1)
           (zvec [0; 2; 0]) (zvec [0; 2; 0]) [] Z.eqb_refl eq_refl eq_refl).
Defined.

Lemma assert_compact_axis_angle_equal_half_turn_witness :
  assert_compact_axis_angle_equal (tol 1) (zvec [0; 2; 0])
    (np_neg (zvec [0; 2; 0])) []
  = (Ok tt, []).
Proof.
  exact (@assert_compact_axis_angle_equal_half_turn Zscalar Zexternals
           (tol 1) (zvec [0; 2; 0]) (zvec [0; -2; 0]) []
           Z_eqb_laws Z_sgn_opp eq_refl eq_refl eq_refl eq_refl).
Defined.

Lemma assert_rotation_matrix_closed_witness :
  is_rotation_matrix (np_T Rz) /\
  assert_rotation_matrix (tol 1) (np_T Rz) [] = (Ok tt, []) /\
  exists R12,
    np_dot Rz Rx = Ok R12 /\ is_rotation_matrix R12 /\
    assert_rotation_matrix (tol 1) R12 [] = (Ok tt, []).
Proof.
  destruct (@assert_rotation_matrix_closed Zscalar Z_ring_laws Zexternals
              (tol 1) Rz Rx [] eq_refl eq_refl Rz_rotation Rx_rotation)
    as ((HT & HaT) & HP).
  split; [exact HT|]. split; [exact HaT|exact HP].
Defined.

Lemma Rz_p1_transform : is_transform (transform_from Rz p1).
Proof. exists Rz, p1. repeat split. Defined.

Lemma Rx_p2_transform : is_transform (transform_from Rx p2).
Proof. exists Rx, p2. repeat split. Defined.

Lemma transforms_closed_witness :
  is_transform (concat (transform_from Rz p1) (transform_from Rx p2)) /\
  exists B2A,
    invert_transform (transform_from Rz p1) = Ok B2A /\ is_transform B2A.
Proof.
  exact (@transforms_closed Zscalar Z_ring_laws (transform_from Rz p1)
           (transform_from Rx p2) Rz_p1_transform Rx_p2_transform).
Defined.

Lemma invert_transform_involutive_witness :
  rbind (invert_transform (transform_from Rz p1)) invert_transform
  = Ok (transform_from Rz p1).
Proof.
  exact (@invert_transform_involutive Zscalar Z_ring_laws
           (transform_from Rz p1) Rz_p1_transform).
Defined.

Lemma concat_monoid_witness :
  concat (concat (transform_from Rz p1) (transform_from Rx p2))
         (transform_from Rz p2)
  = concat (transform_from Rz p1)
           (concat (transform_from Rx p2) (transform_from Rz p2)) /\
  concat (transform_from Rz p1) (np_eye 4) = transform_from Rz p1 /\
  concat (np_eye 4) (transform_from Rz p1) = transform_from Rz p1.
Proof.
  exact (@concat_monoid Zscalar Z_ring_laws (transform_from Rz p1)
           (transform_from Rx p2) (transform_from Rz p2)
           eq_refl eq_refl eq_refl eq_refl eq_refl eq_refl).
Defined.

Lemma transform_vector_to_point_witness :
  transform (transform_from Rz p1) (vector_to_point (zvec [1; 2; 3]))
  = Ok (zvec [3; 7; 10; 1]).
Proof.
  exact (@transform_vector_to_point Zscalar Z_ring_laws Rz p1
           (zvec [1; 2; 3]) eq_refl eq_refl eq_refl).
Defined.

Lemma transform_batch_concat_witness :
  transform (concat (transform_from Rz p1) (transform_from Rx p2))
            (zmat [2; 4]%nat [1; 2; 3; 1; 2; 3; 4; 1])
  = rbind (transform (transform_from Rz p1)
                     (zmat [2; 4]%nat [1; 2; 3; 1; 2; 3; 4; 1]))
          (transform (transform_from Rx p2)).
Proof.
  exact (@transform_batch_concat Zscalar Z_ring_laws (transform_from Rz p1)
           (transform_from Rx p2) (zmat [2; 4]%nat [1; 2; 3; 1; 2; 3; 4; 1])
           2%nat eq_refl eq_refl eq_refl eq_refl eq_refl eq_refl).
Defined.

End MoreExamples.
